(** * Task evaluation pipeline of SafeRLAeroEnv: status, reward and
      observation processors.

    Shallow embedding of
      - saferl/aerospace/tasks/rejoin/processors.py
      - rejoin/rejoin_rta/environments/docking_env.py
      - scripts/rejoin_position_plots.py

    Dictionaries are [gmap string _]; a raised exception is the [Raise]
    constructor of [result].

    Numbers.  The status and reward processors are embedded over exact
    rationals ([Q], compared with [==]) and the observation processor,
    which takes a square root, over the reals extended with the special
    values of numpy's float64.  These embeddings serve the properties
    whose arithmetic is the code's own expression of one step, or an
    order comparison.  Where a property depends on the rounding of a
    sum accumulated over an episode, or on the overflow and underflow
    of a square, the code is embedded over binary64 numbers (module
    [Binary64]), in which [gen_reward] also keeps what it has assigned
    when it raises. *)

From Stdlib Require Import QArith Qabs Lqa Lia List Bool String.
From Stdlib Require Import Reals Lra.
From Stdlib Require PrimFloat FloatOps FloatAxioms SpecFloat.
From stdpp Require Import gmap strings.
Import ListNotations.

Local Open Scope string_scope.
Local Open Scope Q_scope.

Set Warnings "-inexact-float".

(** ** Python values and exceptions *)

(** The values a status mapping holds: booleans (containment, success),
    numbers (times, distances) and strings (failure codes). *)
Inductive value : Type :=
  | VBool (b : bool)
  | VNum (q : Q)
  | VStr (s : string).

Inductive exn : Type :=
  | KeyError (key : value)
  | TypeError
  | ValueError
  | AttributeError.

Inductive result (A : Type) : Type :=
  | Ok (a : A)
  | Raise (e : exn).
Arguments Ok {A} a.
Arguments Raise {A} e.

Definition bind {A B : Type} (m : result A) (k : A -> result B) : result B :=
  match m with
  | Ok a => k a
  | Raise e => Raise e
  end.

Notation "'let*' x ':=' m 'in' k" := (bind m (fun x => k))
  (at level 10, x pattern, m at level 100, k at level 200).

(** Python truth value of an object, as tested by [if], [and], [not]. *)
Definition truthy (v : value) : bool :=
  match v with
  | VBool b => b
  | VNum q => negb (Qeq_bool q 0)
  | VStr s => negb (String.eqb s "")
  end.

(** The number a value stands for in a comparison: [bool] is a subclass
    of [int]; ordering a string against a number raises [TypeError]. *)
Definition as_num (v : value) : result Q :=
  match v with
  | VBool b => Ok (if b then 1 else 0)
  | VNum q => Ok q
  | VStr _ => Raise TypeError
  end.

Definition Qlt_bool (x y : Q) : bool := negb (Qle_bool y x).

(** [d[k]] on a dictionary with string keys. *)
Definition getitem {V : Type} (d : gmap string V) (k : string) : result V :=
  match d !! k with
  | Some v => Ok v
  | None => Raise (KeyError (VStr k))
  end.

(** [d[v]] where the key is a run-time value: only a string can be a key
    of a dictionary whose keys are strings. *)
Definition getitem_value {V : Type} (d : gmap string V) (v : value) : result V :=
  match v with
  | VStr k => getitem d k
  | _ => Raise (KeyError v)
  end.

(** ** The geometry collaborator

    [distance(a, b)] and [region.contains(other)] of
    saferl.environment.models.geometry are outside the sources; the
    processors only call them. *)
Class Geometry (obj : Type) : Type := {
  distance : obj -> obj -> Q;
  contains : obj -> obj -> bool
}.

(** ** Base classes *)

Module Processor.
  (** Modelled from the spec: the base class Processor of
      saferl.environment.tasks.processor is not among the sources.
      Its [step] calls [_increment] and then [_process] and returns the
      value of the latter (spec 4.1: "[_increment] then [_process] are
      always called together per step"). *)
Definition step {S A : Type}
      (_increment : S -> result S) (_process : S -> result A)
      (self : S) : result (S * A) :=
    let* self := _increment self in
    let* out := _process self in
    Ok (self, out).
End Processor.

Module RewardProcessor.
  (** Modelled from the spec: the base class RewardProcessor of
      saferl.environment.tasks.processor is not among the sources.
      Spec 4.3: "Each reward processor owns a current-step value and a
      running total; [_process] returns the step's scalar contribution,
      and the pipeline adds it to the running total after every step." *)
Record accumulator : Type := {
    step_value : Q;
    total_value : Q
  }.

  (** Modelled from the spec: [reset] re-initialises both to zero. *)
Definition reset : accumulator :=
    {| step_value := 0; total_value := 0 |}.

  (** Modelled from the spec: one step of a reward processor. *)
Definition step {S : Type}
      (acc : S -> accumulator) (with_acc : accumulator -> S -> S)
      (_increment : S -> result S) (_process : S -> result Q)
      (self : S) : result (S * Q) :=
    let* self := _increment self in
    let* r := _process self in
    Ok (with_acc {| step_value := r;
                    total_value := total_value (acc self) + r |} self, r).
End RewardProcessor.

(** ** Reward processors of the rejoin task *)

Module RejoinRewardProcessor.
Record config : Type := {
    rejoin_status : string;
    rejoin_prev_status : string;
    reward : Q
  }.

Record state : Type := {
    acc : RewardProcessor.accumulator;
    step_size : Q;
    in_rejoin_for_step : bool;
    left_rejoin : bool
  }.

Definition with_acc (a : RewardProcessor.accumulator) (self : state) : state :=
    {| acc := a; step_size := step_size self;
       in_rejoin_for_step := in_rejoin_for_step self;
       left_rejoin := left_rejoin self |}.

Definition reset (c : config) (status : gmap string value) : state :=
    {| acc := RewardProcessor.reset; step_size := 0;
       in_rejoin_for_step := false; left_rejoin := false |}.

Definition _increment (c : config) (self : state) (step_size : Q)
      (status : gmap string value) : result state :=
    let* in_rejoin := getitem status (rejoin_status c) in
    let* in_rejoin_prev := getitem status (rejoin_prev_status c) in
    if truthy in_rejoin && truthy in_rejoin_prev then
      Ok {| acc := acc self; step_size := step_size;
            in_rejoin_for_step := true; left_rejoin := false |}
    else if negb (truthy in_rejoin) && truthy in_rejoin_prev then
      Ok {| acc := acc self; step_size := step_size;
            in_rejoin_for_step := false; left_rejoin := true |}
    else
      Ok {| acc := acc self; step_size := step_size;
            in_rejoin_for_step := false; left_rejoin := false |}.

Definition _process (c : config) (self : state) : Q :=
    if in_rejoin_for_step self then reward c * step_size self
    else if left_rejoin self then
      -1 * RewardProcessor.total_value (acc self)
    else 0.

Definition step (c : config) (self : state) (step_size : Q)
      (status : gmap string value) : result (state * Q) :=
    RewardProcessor.step acc with_acc
      (fun s => _increment c s step_size status)
      (fun s => Ok (_process c s)) self.

Definition total (self : state) : Q := RewardProcessor.total_value (acc self).

  (** An episode: [reset], then one [step] per entry of the trace. *)
Fixpoint run (c : config) (self : state)
      (trace : list (Q * gmap string value)) : result state :=
    match trace with
    | [] => Ok self
    | (dt, status) :: rest =>
        let* out := step c self dt status in
        run c (fst out) rest
    end.

End RejoinRewardProcessor.

Module RejoinFirstTimeRewardProcessor.
Record config : Type := {
    rejoin_status : string;
    reward : Q
  }.

Record state : Type := {
    acc : RewardProcessor.accumulator;
    rejoin_first_time : bool;
    rejoin_first_time_applied : bool;
    in_rejoin : value
  }.

Definition with_acc (a : RewardProcessor.accumulator) (self : state) : state :=
    {| acc := a; rejoin_first_time := rejoin_first_time self;
       rejoin_first_time_applied := rejoin_first_time_applied self;
       in_rejoin := in_rejoin self |}.

Definition reset (c : config) (status : gmap string value) : result state :=
    let* in_rejoin := getitem status (rejoin_status c) in
    Ok {| acc := RewardProcessor.reset; rejoin_first_time := false;
          rejoin_first_time_applied := false; in_rejoin := in_rejoin |}.

Definition _increment (c : config) (self : state) (step_size : Q)
      (status : gmap string value) : result state :=
    let self :=
      if rejoin_first_time self then
        {| acc := acc self; rejoin_first_time := false;
           rejoin_first_time_applied := true; in_rejoin := in_rejoin self |}
      else self in
    let* in_rejoin_now := getitem status (rejoin_status c) in
    if truthy in_rejoin_now && negb (rejoin_first_time_applied self) then
      Ok {| acc := acc self; rejoin_first_time := true;
            rejoin_first_time_applied := rejoin_first_time_applied self;
            in_rejoin := in_rejoin self |}
    else Ok self.

Definition _process (c : config) (self : state) : Q :=
    if rejoin_first_time self then reward c else 0.

Definition step (c : config) (self : state) (step_size : Q)
      (status : gmap string value) : result (state * Q) :=
    RewardProcessor.step acc with_acc
      (fun s => _increment c s step_size status)
      (fun s => Ok (_process c s)) self.

  (** The step rewards of the steps of a trace, from a given state. *)
Fixpoint rewards (c : config) (self : state)
      (trace : list (Q * gmap string value)) : result (list Q) :=
    match trace with
    | [] => Ok []
    | (dt, status) :: rest =>
        let* out := step c self dt status in
        let* rs := rewards c (fst out) rest in
        Ok (snd out :: rs)
    end.

  (** An episode: [reset] on the initial status mapping, then the steps. *)
Definition episode (c : config) (status0 : gmap string value)
      (trace : list (Q * gmap string value)) : result (list Q) :=
    let* self := reset c status0 in
    rewards c self trace.
(** Is step [i] the first step of the trace on which containment is
    true?  [flags] are the truth values of the containment status, one
    per step. *)
Definition first_in_region (flags : list bool) (i : nat) : bool :=
  nth i flags false && forallb negb (take i flags).

(** The rewards of an episode in which the bonus [w] is paid on the first
    step inside the region and on no other. *)
Fixpoint bonus_once (w : Q) (flags : list bool) : list Q :=
  match flags with
  | [] => []
  | true :: rest => w :: repeat 0 (length rest)
  | false :: rest => 0 :: bonus_once w rest
  end.

(** The containment status of every step of the trace is present, with
    the given truth values. *)
Definition containment_trace (c : config)
    (trace : list (Q * gmap string value)) (flags : list bool) : Prop :=
  Forall2 (fun x b => exists v, snd x !! rejoin_status c = Some v
                                /\ truthy v = b) trace flags.
End RejoinFirstTimeRewardProcessor.

Module RejoinDistanceChangeRewardProcessor.
Record config : Type := {
    rejoin_status : string;
    wingman : string;
    rejoin_region : string;
    reward : Q
  }.

Record state : Type := {
    acc : RewardProcessor.accumulator;
    prev_distance : Q;
    cur_distance : Q;
    in_rejoin : value
  }.

Definition with_acc (a : RewardProcessor.accumulator) (self : state) : state :=
    {| acc := a; prev_distance := prev_distance self;
       cur_distance := cur_distance self; in_rejoin := in_rejoin self |}.

Section WithGeometry.
Context {obj : Type} `{Geometry obj}.

Definition reset (c : config) (env_objs : gmap string obj)
        (status : gmap string value) : result state :=
      let* w := getitem env_objs (wingman c) in
      let* r := getitem env_objs (rejoin_region c) in
      let d := distance w r in
      let* in_rejoin := getitem status (rejoin_status c) in
      Ok {| acc := RewardProcessor.reset; prev_distance := d;
            cur_distance := d; in_rejoin := in_rejoin |}.

Definition _increment (c : config) (self : state)
        (env_objs : gmap string obj) (step_size : Q)
        (status : gmap string value) : result state :=
      let* w := getitem env_objs (wingman c) in
      let* r := getitem env_objs (rejoin_region c) in
      let* in_rejoin := getitem status (rejoin_status c) in
      Ok {| acc := acc self; prev_distance := cur_distance self;
            cur_distance := distance w r; in_rejoin := in_rejoin |}.

Definition _process (c : config) (self : state) : Q :=
      let distance_change := cur_distance self - prev_distance self in
      if negb (truthy (in_rejoin self)) then distance_change * reward c
      else 0.

Definition step (c : config) (self : state)
        (env_objs : gmap string obj) (step_size : Q)
        (status : gmap string value) : result (state * Q) :=
      RewardProcessor.step acc with_acc
        (fun s => _increment c s env_objs step_size status)
        (fun s => Ok (_process c s)) self.
End WithGeometry.
End RejoinDistanceChangeRewardProcessor.

(** ** Status processors of the rejoin task *)

Module DubinsInRejoin.
Record config : Type := {
    wingman : string;
    rejoin_region : string
  }.

Section WithGeometry.
Context {obj : Type} `{Geometry obj}.

    (** [reset] and [_increment] are empty: the processor has no state. *)
Definition _process (c : config) (env_objs : gmap string obj)
        : result value :=
      let* r := getitem env_objs (rejoin_region c) in
      let* w := getitem env_objs (wingman c) in
      Ok (VBool (contains r w)).
End WithGeometry.
End DubinsInRejoin.

Module DubinsInRejoinPrev.
Record config : Type := { rejoin_status : string }.

Record state : Type := {
    in_rejoin_prev : value;
    in_rejoin_current : value
  }.

Definition reset (c : config) (status : gmap string value) : result state :=
    let* cur := getitem status (rejoin_status c) in
    Ok {| in_rejoin_prev := VBool false; in_rejoin_current := cur |}.

Definition _increment (c : config) (self : state) (step_size : Q)
      (status : gmap string value) : result state :=
    let* cur := getitem status (rejoin_status c) in
    Ok {| in_rejoin_prev := in_rejoin_current self; in_rejoin_current := cur |}.

Definition _process (c : config) (self : state) : value :=
    in_rejoin_prev self.

Definition step (c : config) (self : state) (step_size : Q)
      (status : gmap string value) : result (state * value) :=
    Processor.step (fun s => _increment c s step_size status)
                   (fun s => Ok (_process c s)) self.
End DubinsInRejoinPrev.

Module DubinsRejoinTime.
Record config : Type := { rejoin_status : string }.

Record state : Type := {
    rejoin_time : Q;
    in_rejoin : value
  }.

Definition reset (c : config) (status : gmap string value) : result state :=
    let* v := getitem status (rejoin_status c) in
    Ok {| rejoin_time := 0; in_rejoin := v |}.

Definition _increment (c : config) (self : state) (step_size : Q)
      (status : gmap string value) : result state :=
    let* v := getitem status (rejoin_status c) in
    if truthy v then
      Ok {| rejoin_time := rejoin_time self + step_size; in_rejoin := v |}
    else
      Ok {| rejoin_time := 0; in_rejoin := v |}.

Definition _process (c : config) (self : state) : Q := rejoin_time self.

Definition step (c : config) (self : state) (step_size : Q)
      (status : gmap string value) : result (state * Q) :=
    Processor.step (fun s => _increment c s step_size status)
                   (fun s => Ok (_process c s)) self.

  (** The state after an episode prefix: [reset], then the steps. *)
Fixpoint run (c : config) (self : state)
      (trace : list (Q * gmap string value)) : result state :=
    match trace with
    | [] => Ok self
    | (dt, status) :: rest =>
        let* out := step c self dt status in
        run c (fst out) rest
    end.
End DubinsRejoinTime.

Module DubinsTimeElapsed.
Record state : Type := { time_elapsed : Q }.

Definition reset : state := {| time_elapsed := 0 |}.

Definition _increment (self : state) (step_size : Q) : state :=
    {| time_elapsed := time_elapsed self + step_size |}.

Definition _process (self : state) : Q := time_elapsed self.
End DubinsTimeElapsed.

Module DubinsLeadDistance.
Record config : Type := {
    wingman : string;
    lead : string
  }.

Section WithGeometry.
Context {obj : Type} `{Geometry obj}.

Definition _process (c : config) (env_objs : gmap string obj)
        : result Q :=
      let* w := getitem env_objs (wingman c) in
      let* l := getitem env_objs (lead c) in
      Ok (distance w l).
End WithGeometry.
End DubinsLeadDistance.

Module DubinsFailureStatus.
Record config : Type := {
    lead_distance_key : string;
    time_elapsed_key : string;
    safety_margin : gmap string Q;
    timeout : Q;
    max_goal_dist : Q
  }.

Record state : Type := {
    lead_distance : value;
    time_elapsed : value
  }.

Definition reset (c : config) (status : gmap string value) : result state :=
    let* ld := getitem status (lead_distance_key c) in
    let* te := getitem status (time_elapsed_key c) in
    Ok {| lead_distance := ld; time_elapsed := te |}.

Definition _increment (c : config) (self : state) (step_size : Q)
      (status : gmap string value) : result state :=
    let* ld := getitem status (lead_distance_key c) in
    let* te := getitem status (time_elapsed_key c) in
    Ok {| lead_distance := ld; time_elapsed := te |}.

  (** The three tests are evaluated lazily, in the order written: the
      operands of a later test are not looked at once an earlier one
      holds. *)
Definition _process (c : config) (self : state) : result value :=
    let* margin := getitem (safety_margin c) "aircraft" in
    let* ld := as_num (lead_distance self) in
    if Qlt_bool ld margin then Ok (VStr "crash")
    else
      let* te := as_num (time_elapsed self) in
      if Qlt_bool (timeout c) te then Ok (VStr "timeout")
      else if Qle_bool (max_goal_dist c) ld then Ok (VStr "distance")
      else Ok (VBool false).

Definition step (c : config) (self : state) (step_size : Q)
      (status : gmap string value) : result (state * value) :=
    Processor.step (fun s => _increment c s step_size status)
                   (fun s => _process c s) self.
End DubinsFailureStatus.

Module DubinsSuccessStatus.
Record config : Type := {
    rejoin_time_key : string;
    success_time : Q
  }.

Record state : Type := { rejoin_time : value }.

Definition reset (c : config) (status : gmap string value) : result state :=
    let* rt := getitem status (rejoin_time_key c) in
    Ok {| rejoin_time := rt |}.

Definition _increment (c : config) (self : state) (timestep : Q)
      (status : gmap string value) : result state :=
    let* rt := getitem status (rejoin_time_key c) in
    Ok {| rejoin_time := rt |}.

Definition _process (c : config) (self : state) : result value :=
    let* rt := as_num (rejoin_time self) in
    if Qlt_bool (success_time c) rt then Ok (VBool true)
    else Ok (VBool false).

Definition step (c : config) (self : state) (timestep : Q)
      (status : gmap string value) : result (state * value) :=
    Processor.step (fun s => _increment c s timestep status)
                   (fun s => _process c s) self.
End DubinsSuccessStatus.

(** ** Processors of the docking environment (docking_env.py) *)

(** The reward processor over exact rationals, for what one call
    computes from the distances and the weights.  A call that raises
    is a [Raise] here, without the state it leaves behind, and the
    sums over an episode are exact; both are as in the code in
    [Binary64.DockingRewardProcessor]. *)
Module DockingRewardProcessor.
Record config : Type := {
  time_decay : Q;
  dist_change : Q;
  failure : gmap string Q;
  success : Q
}.

Record state : Type := {
  prev_distance : Q;
  step_reward : Q;
  total_reward : Q;
  reward_component_totals : gmap string Q
}.

(** [d[k] += x] on a dictionary. *)
Definition add_to (d : gmap string Q) (k : string) (x : Q)
    : result (gmap string Q) :=
  let* old := getitem d k in
  Ok (<[k := old + x]> d).

Section WithGeometry.
Context {obj : Type} `{Geometry obj}.

Definition reset (c : config) (env_objs : gmap string obj) : result state :=
  let* deputy := getitem env_objs "deputy" in
  let* region := getitem env_objs "docking_region" in
  Ok {| prev_distance := distance deputy region;
        step_reward := 0;
        total_reward := 0;
        reward_component_totals :=
          <["time" := 0]> (<["distance_change" := 0]>
            (<["success" := 0]> (<["failure" := 0]> ∅))) |}.

(** The reward of the terminal condition: the [if]/[elif] on the status
    mapping, as the pair (success_reward, failure_reward). *)
Definition terminal_rewards (c : config) (status_dict : gmap string value)
    : result (Q * Q) :=
  let* f := getitem status_dict "failure" in
  if truthy f then
    let* f' := getitem status_dict "failure" in
    let* fr := getitem_value (failure c) f' in
    Ok (0, 0 + fr)
  else
    let* s := getitem status_dict "success" in
    if truthy s then Ok (0 + success c, 0) else Ok (0, 0).

Definition gen_reward (c : config) (self : state)
    (env_objs : gmap string obj) (timestep : Q)
    (status_dict : gmap string value) : result (state * Q) :=
  let reward := 0 in
  let time_reward := 0 + time_decay c in
  let* deputy := getitem env_objs "deputy" in
  let* region := getitem env_objs "docking_region" in
  let cur_distance := distance deputy region in
  let dist_change_ := cur_distance - prev_distance self in
  let distance_change_reward := 0 + dist_change_ * dist_change c in
  let* sf := terminal_rewards c status_dict in
  let success_reward := fst sf in
  let failure_reward := snd sf in
  let reward := reward + time_reward in
  let reward := reward + distance_change_reward in
  let reward := reward + success_reward in
  let reward := reward + failure_reward in
  let* t1 := add_to (reward_component_totals self) "time" time_reward in
  let* t2 := add_to t1 "distance_change" distance_change_reward in
  let* t3 := add_to t2 "success" success_reward in
  let* t4 := add_to t3 "failure" failure_reward in
  Ok ({| prev_distance := cur_distance;
         step_reward := reward;
         total_reward := total_reward self + reward;
         reward_component_totals := t4 |}, reward).

(** The step reward of a call, from its parts. *)
Definition step_sum (c : config) (self : state) (deputy region : obj)
    (sf : Q * Q) : Q :=
  0 + (0 + time_decay c)
    + (0 + (distance deputy region - prev_distance self) * dist_change c)
    + fst sf + snd sf.

(** The states of an episode: after [reset], and after every further
    call of [gen_reward] that returns. *)
Inductive reachable (c : config) : state -> Prop :=
  | reachable_reset env_objs self :
      reset c env_objs = Ok self -> reachable c self
  | reachable_gen_reward self env_objs timestep status_dict self' r :
      reachable c self ->
      gen_reward c self env_objs timestep status_dict = Ok (self', r) ->
      reachable c self'.
End WithGeometry.

(** The running total equals the sum of the four component totals. *)
Definition totals_consistent (self : state) : Prop :=
  exists t d s f,
    reward_component_totals self !! "time" = Some t
    /\ reward_component_totals self !! "distance_change" = Some d
    /\ reward_component_totals self !! "success" = Some s
    /\ reward_component_totals self !! "failure" = Some f
    /\ total_reward self == t + d + s + f.

(** What a call added to the component total [k]. *)
Definition contribution (k : string) (before after : state) : result Q :=
  let* old := getitem (reward_component_totals before) k in
  let* new := getitem (reward_component_totals after) k in
  Ok (new - old).
End DockingRewardProcessor.

Module DockingConstraintProcessor.
Record config : Type := {
  timeout : Q;
  max_goal_distance : Q
}.

Record state : Type := {
  time_elapsed : Q;
  in_docking : bool
}.

Definition reset : state := {| time_elapsed := 0; in_docking := false |}.

Section WithGeometry.
Context {obj : Type} `{Geometry obj}.

Definition check_docking_cond (env_objs : gmap string obj) : result bool :=
  let* region := getitem env_objs "docking_region" in
  let* deputy := getitem env_objs "deputy" in
  Ok (contains region deputy).

Definition check_constraints (c : config) (self : state)
    (env_objs : gmap string obj) : result (gmap string value) :=
  let* in_docking := check_docking_cond env_objs in
  let* deputy := getitem env_objs "deputy" in
  let* region := getitem env_objs "docking_region" in
  let dock_distance := distance deputy region in
  let failure :=
    if Qlt_bool (timeout c) (time_elapsed self) then VStr "timeout"
    else if Qle_bool (max_goal_distance c) dock_distance then VStr "distance"
    else VBool false in
  let success := if in_docking then VBool true else VBool false in
  Ok (<["success" := success]> (<["failure" := failure]>
       (<["in_docking" := VBool in_docking]>
         (<["time_elapsed" := VNum (time_elapsed self)]> ∅)))).

Definition step (c : config) (self : state) (env_objs : gmap string obj)
    (timestep : Q) : result (state * gmap string value) :=
  let self := {| time_elapsed := time_elapsed self + timestep;
                 in_docking := in_docking self |} in
  let* status_dict := check_constraints c self env_objs in
  Ok (self, status_dict).
End WithGeometry.
End DockingConstraintProcessor.

(** ** The observation processor of the rejoin task

    numpy arrays are lists; their elements are reals extended with the
    infinities and the not-a-number of float64, which is what numpy's
    true division yields on a zero divisor (a warning, not an
    exception).  The arithmetic is exact: rounding, overflow and
    underflow are in [Binary64.DubinsObservationProcessor]. *)

Module DubinsObservationProcessor.
Local Open Scope R_scope.

Inductive float64 : Type :=
  | Fin (r : R)
  | Inf (negative : bool)
  | NaN.

(** [x / d] on two finite numbers. *)
Definition fdiv (x d : R) : float64 :=
  if Req_EM_T d 0 then
    if Req_EM_T x 0 then NaN
    else if Rlt_dec x 0 then Inf true else Inf false
  else Fin (x / d).

(** [x / d] where the divisor is finite. *)
Definition divide (x : float64) (d : R) : float64 :=
  match x with
  | Fin a => fdiv a d
  | Inf s => if Rlt_dec d 0 then Inf (negb s) else Inf s
  | NaN => NaN
  end.


(** [np.clip(x, lo, hi)], that is [minimum(maximum(x, lo), hi)]; a
    not-a-number stays one. *)
Definition clip (lo hi : R) (x : float64) : float64 :=
  match x with
  | Fin a => Fin (Rmin (Rmax a lo) hi)
  | Inf true => Fin (Rmin lo hi)
  | Inf false => Fin hi
  | NaN => NaN
  end.

(** An elementwise operation on two one-dimensional arrays, with
    numpy's broadcasting: equal lengths, or one of them of length one;
    any other pair of shapes raises [ValueError]. *)
Definition broadcast {A B C : Type} (f : A -> B -> C)
    (a : list A) (b : list B) : result (list C) :=
  if (length a =? length b)%nat then Ok (zip_with f a b)
  else
    match a, b with
    | [x], _ => Ok (map (f x) b)
    | _, [y] => Ok (map (fun x => f x y) a)
    | _, _ => Raise ValueError
    end.

(** [np.linalg.norm] of a one-dimensional array. *)
Definition norm (vec : list R) : R :=
  sqrt (fold_right (fun x s => x * x + s) 0 vec).

Definition vec2magnorm (vec : list R) : list float64 :=
  let norm := norm vec in
  Fin norm :: map (fun x => fdiv x norm) vec.

(** scipy's [Rotation] is outside the sources: [from_quat([0, 0, 0, 1])]
    (the identity), [inv] and [apply], which raises on a vector of a
    shape it does not accept. *)
Class Rotation (rotation : Type) : Type := {
  from_quat_0001 : rotation;
  inv : rotation -> rotation;
  apply : rotation -> list R -> result (list R)
}.

Record config : Type := {
  lead : string;
  wingman : string;
  rejoin_region : string;
  reference : string;
  mode : string
}.

(** The attribute set by [__init__]; it stays unset for a mode other
    than the two known ones. *)
Definition obs_norm_const (c : config) : result (list R) :=
  if String.eqb (mode c) "rect" then
    Ok [10000; 10000; 10000; 10000; 100; 100; 100; 100]
  else if String.eqb (mode c) "magnorm" then
    Ok [10000; 1; 1; 10000; 1; 1; 100; 1; 1; 100; 1; 1]
  else Raise AttributeError.

Section WithRotation.
Context {rotation : Type} `{Rotation rotation}.

Record env_obj : Type := {
  position : list R;
  velocity : list R;
  orientation : rotation
}.

Definition _process (c : config) (env_objs : gmap string env_obj)
    : result (list float64) :=
  let* l := getitem env_objs (lead c) in
  let* w := getitem env_objs (wingman c) in
  let* wingman_lead_r := broadcast Rminus (position l) (position w) in
  let* region := getitem env_objs (rejoin_region c) in
  let* wingman_rejoin_r :=
    broadcast Rminus (position region) (position w) in
  let wingman_vel := velocity w in
  let lead_vel := velocity l in
  let reference_rotation :=
    if String.eqb (reference c) "wingman" then inv (orientation w)
    else from_quat_0001 in
  let* wingman_lead_r := apply reference_rotation wingman_lead_r in
  let* wingman_rejoin_r := apply reference_rotation wingman_rejoin_r in
  let* wingman_vel := apply reference_rotation wingman_vel in
  let* lead_vel := apply reference_rotation lead_vel in
  let encode :=
    if String.eqb (mode c) "magnorm" then vec2magnorm else map Fin in
  let obs :=
    (encode wingman_lead_r ++ encode wingman_rejoin_r
       ++ encode wingman_vel ++ encode lead_vel)%list in
  let* consts := obs_norm_const c in
  let* obs := broadcast divide obs consts in
  Ok (map (clip (-1) 1) obs).
End WithRotation.

(** The shape of the observation space declared by [__init__]. *)
Definition observation_space_shape (c : config) : result nat :=
  if String.eqb (mode c) "rect" then Ok 8%nat
  else if String.eqb (mode c) "magnorm" then Ok 12%nat
  else Raise AttributeError.

(** scipy's [apply] takes a single vector only of shape (3,) and returns
    one of that shape; any other one-dimensional array raises. *)
Definition three_vectors_only (rotation : Type) `{Rotation rotation} : Prop :=
  forall (r : rotation) (v out : list R),
    apply r v = Ok out -> length v = 3%nat /\ length out = 3%nat.

(** What the declared observation space [Box(low=-1, high=1)] contains. *)
Definition in_box (x : float64) : Prop :=
  match x with
  | Fin a => -1 <= a <= 1
  | _ => False
  end.
End DubinsObservationProcessor.

(** ** Concrete scenarios *)

Module LineGeometry.
(** Objects on a line: a position and, for a region, a radius. *)
Record obj : Type := { pos : Q; radius : Q }.

#[global] Instance line_geometry : Geometry obj := {|
  distance a b := Qabs (pos a - pos b);
  contains region other :=
    Qle_bool (Qabs (pos other - pos region)) (radius region)
|}.
End LineGeometry.

Module Scenario.
(** A status mapping holding the two containment statuses. *)
Definition containment (now prev : bool) : gmap string value :=
  <["in_rejoin" := VBool now]> (<["in_rejoin_prev" := VBool prev]> ∅).


Definition bonus (w : Q) : RejoinFirstTimeRewardProcessor.config :=
  {| RejoinFirstTimeRewardProcessor.rejoin_status := "in_rejoin";
     RejoinFirstTimeRewardProcessor.reward := w |}.

(** Containment toggles: inside, outside, inside again. *)
Definition toggling : list (Q * gmap string value) :=
  [(1, containment true false); (1, containment false true);
   (1, containment true false)].
Definition rejoin_time_config : DubinsRejoinTime.config :=
  {| DubinsRejoinTime.rejoin_status := "in_rejoin" |}.

(** Three time units already spent in the region. *)
Definition three_in_region : DubinsRejoinTime.state :=
  {| DubinsRejoinTime.rejoin_time := 3;
     DubinsRejoinTime.in_rejoin := VBool true |}.

(** Thresholds: crash 10, timeout 500, maximum goal distance 50000. *)
Definition failure_thresholds : DubinsFailureStatus.config :=
  {| DubinsFailureStatus.lead_distance_key := "lead_distance";
     DubinsFailureStatus.time_elapsed_key := "time_elapsed";
     DubinsFailureStatus.safety_margin := <["aircraft" := 10]> ∅;
     DubinsFailureStatus.timeout := 500;
     DubinsFailureStatus.max_goal_dist := 50000 |}.

Definition flight (lead_distance time_elapsed : Q) : gmap string value :=
  <["lead_distance" := VNum lead_distance]>
    (<["time_elapsed" := VNum time_elapsed]> ∅).

Definition failure_initial : DubinsFailureStatus.state :=
  {| DubinsFailureStatus.lead_distance := VNum 100;
     DubinsFailureStatus.time_elapsed := VNum 0 |}.
(** Wingman and rejoin region on a line; the region of radius 50 sits at
    the origin. *)
Definition rejoin_env (wingman_pos : Q) : gmap string LineGeometry.obj :=
  <["wingman" := {| LineGeometry.pos := wingman_pos;
                    LineGeometry.radius := 0 |}]>
    (<["rejoin_region" := {| LineGeometry.pos := 0;
                             LineGeometry.radius := 50 |}]> ∅).

Definition closing (weight : Q) : RejoinDistanceChangeRewardProcessor.config :=
  {| RejoinDistanceChangeRewardProcessor.rejoin_status := "in_rejoin";
     RejoinDistanceChangeRewardProcessor.wingman := "wingman";
     RejoinDistanceChangeRewardProcessor.rejoin_region := "rejoin_region";
     RejoinDistanceChangeRewardProcessor.reward := weight |}.

(** Deputy and docking region on a line; the region of radius 1 sits at
    the origin. *)
Definition docking_env (deputy_pos : Q) : gmap string LineGeometry.obj :=
  <["deputy" := {| LineGeometry.pos := deputy_pos;
                   LineGeometry.radius := 0 |}]>
    (<["docking_region" := {| LineGeometry.pos := 0;
                              LineGeometry.radius := 1 |}]> ∅).

Definition docking_limits : DockingConstraintProcessor.config :=
  {| DockingConstraintProcessor.timeout := 2;
     DockingConstraintProcessor.max_goal_distance := 1000 |}.

Definition docking_rewards : DockingRewardProcessor.config :=
  {| DockingRewardProcessor.time_decay := (-1 # 100);
     DockingRewardProcessor.dist_change := (-1 # 10);
     DockingRewardProcessor.failure :=
       <["timeout" := -(1)]> (<["distance" := -(1)]> ∅);
     DockingRewardProcessor.success := 1 |}.

(** A status record with a termination outcome. *)
Definition outcome (success failure : value) : gmap string value :=
  <["success" := success]> (<["failure" := failure]> ∅).
End Scenario.

Module ObservationScenario.
Import DubinsObservationProcessor.
Local Open Scope R_scope.

(** The identity of scipy's rotations, with its check of the shape. *)
Inductive spatial : Type := SpatialIdentity.

#[global] Instance spatial_rotation : Rotation spatial := {|
  from_quat_0001 := SpatialIdentity;
  inv r := r;
  apply r v := if (length v =? 3)%nat then Ok v else Raise ValueError
|}.

Definition observe (mode : string) : config :=
  {| lead := "lead"; wingman := "wingman"; rejoin_region := "rejoin_region";
     reference := "world"; DubinsObservationProcessor.mode := mode |}.

(** Lead 100 ahead of the wingman, the rejoin region between them, both
    flying at speed 10; positions and velocities have three components. *)
Definition formation : gmap string (@env_obj spatial) :=
  <["lead" := {| position := [100; 0; 0]; velocity := [10; 0; 0];
                 orientation := SpatialIdentity |}]>
    (<["wingman" := {| position := [0; 0; 0]; velocity := [10; 0; 0];
                       orientation := SpatialIdentity |}]>
      (<["rejoin_region" := {| position := [50; 0; 0]; velocity := [10; 0; 0];
                               orientation := SpatialIdentity |}]> ∅)).

End ObservationScenario.

(** ** Episodes of the rejoin processors *)

Module RejoinEpisode.


(** The values [DubinsInRejoinPrev] returns on the steps of a trace. *)
Fixpoint prev_outputs (c : DubinsInRejoinPrev.config)
    (self : DubinsInRejoinPrev.state)
    (trace : list (Q * gmap string value)) : result (list value) :=
  match trace with
  | [] => Ok []
  | (dt, status) :: rest =>
      let* out := DubinsInRejoinPrev.step c self dt status in
      let* outs := prev_outputs c (fst out) rest in
      Ok (snd out :: outs)
  end.

(** [DubinsTimeElapsed] over the step sizes of an episode. *)
Fixpoint elapsed (self : DubinsTimeElapsed.state) (sizes : list Q)
    : DubinsTimeElapsed.state :=
  match sizes with
  | [] => self
  | dt :: rest => elapsed (DubinsTimeElapsed._increment self dt) rest
  end.

Definition Qsum (l : list Q) : Q := fold_right Qplus 0 l.
End RejoinEpisode.

Module EpisodeScenario.


Definition prev_config : DubinsInRejoinPrev.config :=
  {| DubinsInRejoinPrev.rejoin_status := "in_rejoin" |}.

Definition success_after (t : Q) : DubinsSuccessStatus.config :=
  {| DubinsSuccessStatus.rejoin_time_key := "rejoin_time";
     DubinsSuccessStatus.success_time := t |}.
End EpisodeScenario.

(** ** Episodes of the docking processors *)

Module DockingEpisode.
Section WithGeometry.
Context {obj : Type} `{Geometry obj}.

(** The status records of a sequence of steps of the constraint
    processor, and the state after them. *)
Fixpoint records (c : DockingConstraintProcessor.config)
    (self : DockingConstraintProcessor.state)
    (steps : list (gmap string obj * Q))
    : result (DockingConstraintProcessor.state * list (gmap string value)) :=
  match steps with
  | [] => Ok (self, [])
  | (env_objs, timestep) :: rest =>
      let* out := DockingConstraintProcessor.step c self env_objs timestep in
      let* outs := records c (fst out) rest in
      Ok (fst outs, snd out :: snd outs)
  end.

End WithGeometry.
End DockingEpisode.

(** ** The observation processor of the three-dimensional rejoin task *)

Module Dubins3dObservationProcessor.
Import DubinsObservationProcessor.
Local Open Scope R_scope.

Record config : Type := {
  lead : string;
  wingman : string;
  rejoin_region : string;
  reference : string;
  mode : string
}.

Definition obs_norm_const (c : config) : result (list R) :=
  if String.eqb (mode c) "rect" then
    Ok [10000; 10000; 10000; 10000; 10000; 10000;
        100; 100; 100; 100; 100; 100; PI; PI]
  else if String.eqb (mode c) "magnorm" then
    Ok [10000; 1; 1; 1; 10000; 1; 1; 1; 100; 1; 1; 1; 100; 1; 1; 1; PI; PI]
  else Raise AttributeError.

Definition observation_space_shape (c : config) : result nat :=
  if String.eqb (mode c) "rect" then Ok 14%nat
  else if String.eqb (mode c) "magnorm" then Ok 18%nat
  else Raise AttributeError.

Section WithRotation.
Context {rotation : Type} `{Rotation rotation}.

Record env_obj : Type := {
  position : list R;
  velocity : list R;
  orientation : rotation;
  roll : R;
  gamma : R
}.

(** The local function of [generate_observation]. *)
Definition vec2magnorm (vec : list R) : list float64 :=
  let norm := norm vec in
  Fin norm :: map (fun x => fdiv x norm) vec.

(** Roll and flight path angle are read from the object named
    "wingman", whatever name the configuration gives the wingman. *)
Definition generate_observation (c : config)
    (env_objs : gmap string env_obj) : result (list float64) :=
  let* l := getitem env_objs (lead c) in
  let* w := getitem env_objs (wingman c) in
  let* wingman_lead_r := broadcast Rminus (position l) (position w) in
  let* region := getitem env_objs (rejoin_region c) in
  let* wingman_rejoin_r :=
    broadcast Rminus (position region) (position w) in
  let wingman_vel := velocity w in
  let lead_vel := velocity l in
  let reference_rotation :=
    if String.eqb (reference c) "wingman" then inv (orientation w)
    else from_quat_0001 in
  let* wingman_lead_r := apply reference_rotation wingman_lead_r in
  let* wingman_rejoin_r := apply reference_rotation wingman_rejoin_r in
  let* wingman_vel := apply reference_rotation wingman_vel in
  let* lead_vel := apply reference_rotation lead_vel in
  let encode :=
    if String.eqb (mode c) "magnorm" then vec2magnorm else map Fin in
  let* named_wingman := getitem env_objs "wingman" in
  let roll_ := [Fin (roll named_wingman)] in
  let gamma_ := [Fin (gamma named_wingman)] in
  let obs :=
    (encode wingman_lead_r ++ encode wingman_rejoin_r
       ++ encode wingman_vel ++ encode lead_vel ++ roll_ ++ gamma_)%list in
  let* consts := obs_norm_const c in
  let* obs := broadcast divide obs consts in
  Ok (map (clip (-1) 1) obs).
End WithRotation.
End Dubins3dObservationProcessor.

Module Observation3dScenario.
Import Dubins3dObservationProcessor.
Local Open Scope R_scope.

Definition observe (mode : string) : config :=
  {| lead := "lead"; wingman := "wingman"; rejoin_region := "rejoin_region";
     reference := "world"; Dubins3dObservationProcessor.mode := mode |}.

(** The same, with the wingman under the name "blue". *)
Definition observe_blue (mode : string) : config :=
  {| lead := "lead"; wingman := "blue"; rejoin_region := "rejoin_region";
     reference := "world"; Dubins3dObservationProcessor.mode := mode |}.

Definition aircraft (position velocity : list R)
    : @env_obj ObservationScenario.spatial :=
  {| position := position; velocity := velocity;
     orientation := ObservationScenario.SpatialIdentity;
     roll := 0; gamma := 0 |}.

Definition formation : gmap string (@env_obj ObservationScenario.spatial) :=
  <["lead" := aircraft [100; 0; 0] [10; 0; 0]]>
    (<["wingman" := aircraft [0; 0; 0] [10; 0; 0]]>
      (<["rejoin_region" := aircraft [50; 0; 0] [10; 0; 0]]> ∅)).

Definition formation_blue
    : gmap string (@env_obj ObservationScenario.spatial) :=
  <["lead" := aircraft [100; 0; 0] [10; 0; 0]]>
    (<["blue" := aircraft [0; 0; 0] [10; 0; 0]]>
      (<["rejoin_region" := aircraft [50; 0; 0] [10; 0; 0]]> ∅)).
End Observation3dScenario.

Module ObservationFacts.
Import DubinsObservationProcessor.

(** A float64 that is a number: neither an infinity nor a not-a-number. *)
Definition finite (x : float64) : Prop := exists a : R, x = Fin a.
End ObservationFacts.

(** ** The code over binary64 numbers

    Python's [float] and numpy's [float64] are IEEE 754 binary64
    numbers, rounded to nearest with ties to even, and so is Rocq's
    [float].  A total that the code accumulates over the calls of an
    episode is rounded at every addition, and a square can overflow or
    underflow; where a property depends on this, the code is embedded
    over [float].  A number of the configuration that is a Python [int]
    is converted when it meets a [float] in a sum; it is taken here as
    the [float] of the same value. *)
Module Binary64.
Import PrimFloat.
Local Open Scope float_scope.

(** [distance(a, b)] of the geometry module, which is outside the
    sources. *)
Class Geometry (obj : Type) : Type := { distance : obj -> obj -> float }.

Module DubinsObservationProcessor.
(** [np.linalg.norm] of a one-dimensional array: the square root of the
    dot product of the array with itself.  The products are added up
    here from the first component on; numpy leaves the order to the
    BLAS routine, and no property below depends on it. *)
Definition norm (vec : list float) : float :=
  sqrt (fold_left (fun s x => s + x * x) vec 0).

Definition vec2magnorm (vec : list float) : list float :=
  let norm := norm vec in
  norm :: map (fun x => x / norm) vec.
End DubinsObservationProcessor.

(** [DockingRewardProcessor], with its dictionary of component totals
    as the shared object it is: [_generate_info] puts the dictionary
    [self.reward_component_totals] itself, not a copy, into the info it
    returns, and [gen_reward] updates that dictionary in place.  The
    dictionaries live in a store, a list indexed by addresses; [reset]
    allocates a new dictionary at its end, and the processor and the
    infos hold addresses. *)
Module DockingRewardProcessor.
Record config : Type := {
  time_decay : float;
  dist_change : float;
  failure : gmap string float;
  success : float
}.

Record state : Type := {
  prev_distance : float;
  step_reward : float;
  total_reward : float;
  reward_component_totals : nat
}.

(** The dictionary returned by [_generate_info]. *)
Record info : Type := {
  step : float;
  component_totals : nat;
  total : float
}.

(** A method running on [self] and the store: it returns or raises,
    and what it has assigned before it raises stays assigned. *)
Definition method (A : Type) : Type :=
  state -> list (gmap string float)
  -> state * list (gmap string float) * result A.

Definition ret {A : Type} (a : A) : method A :=
  fun self h => (self, h, Ok a).

Definition lift {A : Type} (r : result A) : method A :=
  fun self h => (self, h, r).

Definition then_ {A B : Type} (m : method A) (k : A -> method B)
    : method B :=
  fun self h =>
    match m self h with
    | (self', h', Ok a) => k a self' h'
    | (self', h', Raise e) => (self', h', Raise e)
    end.

Notation "'let!' x ':=' m 'in' k" := (then_ m (fun x => k))
  (at level 10, x pattern, m at level 100, k at level 200).

(** [self.prev_distance], [self.total_reward]. *)
Definition get_prev_distance : method float :=
  fun self h => (self, h, Ok (prev_distance self)).

Definition get_total_reward : method float :=
  fun self h => (self, h, Ok (total_reward self)).

(** [self.prev_distance = x] and the like. *)
Definition set_prev_distance (x : float) : method unit :=
  fun self h =>
    ({| prev_distance := x;
        step_reward := step_reward self;
        total_reward := total_reward self;
        reward_component_totals := reward_component_totals self |},
     h, Ok tt).

Definition set_step_reward (x : float) : method unit :=
  fun self h =>
    ({| prev_distance := prev_distance self;
        step_reward := x;
        total_reward := total_reward self;
        reward_component_totals := reward_component_totals self |},
     h, Ok tt).

Definition set_total_reward (x : float) : method unit :=
  fun self h =>
    ({| prev_distance := prev_distance self;
        step_reward := step_reward self;
        total_reward := x;
        reward_component_totals := reward_component_totals self |},
     h, Ok tt).

(** [self.reward_component_totals[k] += x]: the dictionary at the
    address the processor holds is updated in place. *)
Definition add_to_total (k : string) (x : float) : method unit :=
  fun self h =>
    match h !! reward_component_totals self with
    | Some d =>
        match d !! k with
        | Some old =>
            (self,
             <[reward_component_totals self := <[k := old + x]> d]> h,
             Ok tt)
        | None => (self, h, Raise (KeyError (VStr k)))
        end
    | None => (self, h, Raise AttributeError)
    end.

Definition _generate_info (self : state) : info :=
  {| step := step_reward self;
     component_totals := reward_component_totals self;
     total := total_reward self |}.

(** The reward of the terminal condition: the [if]/[elif] on the status
    mapping, which assigns no attribute, as the pair (success_reward,
    failure_reward). *)
Definition terminal_rewards (c : config) (status_dict : gmap string value)
    : result (float * float) :=
  let* f := getitem status_dict "failure" in
  if truthy f then
    let* f' := getitem status_dict "failure" in
    let* fr := getitem_value (failure c) f' in
    Ok (0, 0 + fr)
  else
    let* s := getitem status_dict "success" in
    if truthy s then Ok (0 + success c, 0) else Ok (0, 0).

Section WithGeometry.
Context {obj : Type} `{Geometry obj}.

(** Both lookups of [reset] come before its first assignment: when it
    raises, nothing has changed.  The dictionary literal is a new
    object. *)
Definition reset (c : config) (env_objs : gmap string obj)
    (h : list (gmap string float))
    : result (state * list (gmap string float)) :=
  let* deputy := getitem env_objs "deputy" in
  let* region := getitem env_objs "docking_region" in
  Ok ({| prev_distance := distance deputy region;
         step_reward := 0;
         total_reward := 0;
         reward_component_totals := length h |},
      (h ++ [<["time" := 0]> (<["distance_change" := 0]>
               (<["success" := 0]> (<["failure" := 0]> ∅)))])%list).

Definition gen_reward (c : config) (env_objs : gmap string obj)
    (timestep : float) (status_dict : gmap string value) : method float :=
  let reward := 0 in
  let time_reward := 0 + time_decay c in
  let! deputy := lift (getitem env_objs "deputy") in
  let! region := lift (getitem env_objs "docking_region") in
  let cur_distance := distance deputy region in
  let! prev := get_prev_distance in
  let dist_change_ := cur_distance - prev in
  let! _ := set_prev_distance cur_distance in
  let distance_change_reward := 0 + dist_change_ * dist_change c in
  let! sf := lift (terminal_rewards c status_dict) in
  let success_reward := fst sf in
  let failure_reward := snd sf in
  let reward := reward + time_reward in
  let reward := reward + distance_change_reward in
  let reward := reward + success_reward in
  let reward := reward + failure_reward in
  let! _ := set_step_reward reward in
  let! total := get_total_reward in
  let! _ := set_total_reward (total + reward) in
  let! _ := add_to_total "time" time_reward in
  let! _ := add_to_total "distance_change" distance_change_reward in
  let! _ := add_to_total "success" success_reward in
  let! _ := add_to_total "failure" failure_reward in
  ret reward.

(** The states and stores of a run: after a [reset] on any store, and
    after every further call of [gen_reward], returned or raised. *)
Inductive reachable (c : config)
    : state -> list (gmap string float) -> Prop :=
  | reachable_reset env_objs h self h' :
      reset c env_objs h = Ok (self, h') -> reachable c self h'
  | reachable_gen_reward self h env_objs timestep status_dict self' h' out :
      reachable c self h ->
      gen_reward c env_objs timestep status_dict self h = (self', h', out) ->
      reachable c self' h'.
End WithGeometry.

(** The four component totals of a dictionary. *)
Definition component_totals_of (d : gmap string float)
    (t dc s f : float) : Prop :=
  d !! "time" = Some t /\ d !! "distance_change" = Some dc
  /\ d !! "success" = Some s /\ d !! "failure" = Some f.

(** The processor holds the address of a dictionary with the four
    component totals. *)
Definition has_totals (h : list (gmap string float)) (self : state) : Prop :=
  exists d t dc s f,
    h !! reward_component_totals self = Some d
    /\ component_totals_of d t dc s f.
End DockingRewardProcessor.

(** Objects on a line; the distance of two of them is the absolute
    difference of their positions. *)
Module Line.
Record obj : Type := { pos : float }.

#[global] Instance line_distance : Geometry obj := {|
  distance a b := abs (pos a - pos b)
|}.

(** The deputy at the given position, the docking region at 0. *)
Definition docking_env (deputy_pos : float) : gmap string obj :=
  <["deputy" := {| pos := deputy_pos |}]>
    (<["docking_region" := {| pos := 0 |}]> ∅).

Definition docking_rewards : DockingRewardProcessor.config :=
  {| DockingRewardProcessor.time_decay := -0.01;
     DockingRewardProcessor.dist_change := -0.1;
     DockingRewardProcessor.failure :=
       <["timeout" := -1]> (<["distance" := -1]> ∅);
     DockingRewardProcessor.success := 1 |}.
End Line.
End Binary64.

(** The call returned, it did not raise. *)
Definition returned {A : Type} (r : result A) : bool :=
  match r with
  | Ok _ => true
  | Raise _ => false
  end.

(** ** scripts/rejoin_position_plots.py: the episode of a log

    A log is the list of the values its lines parse to.  Opening the
    file and parsing the lines are outside the embedding. *)
Module PositionPlots.

(** A parsed JSON value; dictionaries built by the script are values of
    this type too, with [JList] for their lists. *)
#[warnings="-register-all"]
Inductive json : Type :=
  | JNull
  | JBool (b : bool)
  | JNum (q : Q)
  | JStr (s : string)
  | JList (items : list json)
  | JObj (fields : gmap string json).

(** [j[k]] for a string [k]. *)
Definition getitem_json (j : json) (k : string) : result json :=
  match j with
  | JObj fields =>
      match fields !! k with
      | Some v => Ok v
      | None => Raise (KeyError (VStr k))
      end
  | _ => Raise TypeError
  end.

(** [j[k1][k2]...]. *)
Fixpoint path (j : json) (ks : list string) : result json :=
  match ks with
  | [] => Ok j
  | k :: rest => let* v := getitem_json j k in path v rest
  end.

(** [k in j] for a string [k]: a key of a dictionary, an element of a
    list, a substring of a string. *)
Definition contains_json (k : string) (j : json) : result bool :=
  match j with
  | JObj fields => Ok (bool_decide (is_Some (fields !! k)))
  | JList items =>
      Ok (existsb (fun x => match x with
                            | JStr s => String.eqb s k
                            | _ => false
                            end) items)
  | JStr s => Ok (match String.index 0 k s with
                  | Some _ => true
                  | None => false
                  end)
  | _ => Raise TypeError
  end.

(** [j == n] for an integer [n]; [True] equals 1 and [False] equals 0. *)
Definition eq_int (j : json) (n : Z) : bool :=
  match j with
  | JNum q => Qeq_bool q (inject_Z n)
  | JBool b => Z.eqb (if b then 1 else 0) n
  | _ => false
  end.

(** [d[k].append(x)]: the list is looked up before [x] is evaluated. *)
Definition append (d : gmap string json) (k : string) (x : result json)
    : result (gmap string json) :=
  let* l := getitem_json (JObj d) k in
  match l with
  | JList items => let* v := x in Ok (<[k := JList (items ++ [v])%list]> d)
  | _ => Raise AttributeError
  end.

Definition episode_dict0 : gmap string json :=
  <["step_number" := JList []]> (<["lead_x" := JList []]>
  (<["lead_y" := JList []]> (<["lead_z" := JList []]>
  (<["wingman_x" := JList []]> (<["wingman_y" := JList []]>
  (<["wingman_z" := JList []]> (<["rejoin_region_x" := JList []]>
  (<["rejoin_region_y" := JList []]>
  (<["rejoin_region_z" := JList []]> ∅))))))))).

(** The body of the loop of [process_log]. *)
Definition process_state (episode_number : Z) (episode_dict : gmap string json)
    (state : json) : result (gmap string json) :=
  let* wen := getitem_json state "worker_episode_number" in
  if eq_int wen episode_number then
    let* id := getitem_json state "episode_ID" in
    let d := <["ID" := id]> episode_dict in
    let* d := append d "step_number" (getitem_json state "step_number") in
    let* d := append d "lead_x" (path state ["info"; "lead"; "x"]) in
    let* d := append d "lead_y" (path state ["info"; "lead"; "y"]) in
    let* d := append d "wingman_x" (path state ["info"; "wingman"; "x"]) in
    let* d := append d "wingman_y" (path state ["info"; "wingman"; "y"]) in
    let* d := append d "rejoin_region_x"
                (path state ["info"; "rejoin_region"; "x"]) in
    let* d := append d "rejoin_region_y"
                (path state ["info"; "rejoin_region"; "y"]) in
    let* lead := path state ["info"; "lead"] in
    let* has_z := contains_json "z" lead in
    if has_z then
      let* d := append d "lead_z" (path state ["info"; "lead"; "z"]) in
      let* d := append d "wingman_z" (path state ["info"; "wingman"; "z"]) in
      append d "rejoin_region_z" (path state ["info"; "rejoin_region"; "z"])
    else Ok d
  else Ok episode_dict.

Fixpoint process_states (episode_number : Z) (episode_dict : gmap string json)
    (log : list json) : result (gmap string json) :=
  match log with
  | [] => Ok episode_dict
  | state :: rest =>
      let* d := process_state episode_number episode_dict state in
      process_states episode_number d rest
  end.

Definition process_log (log : list json) (episode_number : Z)
    : result (gmap string json) :=
  process_states episode_number episode_dict0 log.

(** The record belongs to the episode. *)
Definition of_episode (episode_number : Z) (state : json) : bool :=
  match getitem_json state "worker_episode_number" with
  | Ok wen => eq_int wen episode_number
  | Raise _ => false
  end.

(** The lead of the record has an altitude. *)
Definition lead_has_z (state : json) : bool :=
  match path state ["info"; "lead"] with
  | Ok lead => match contains_json "z" lead with
               | Ok b => b
               | Raise _ => false
               end
  | Raise _ => false
  end.

(** The length of the list under a key of the result. *)
Definition len_at (d : gmap string json) (k : string) : option nat :=
  match d !! k with
  | Some (JList items) => Some (length items)
  | _ => None
  end.

(** The keys of the lists of the plane and of the altitude lists. *)
Definition planar_keys : list string :=
  ["step_number"; "lead_x"; "lead_y"; "wingman_x"; "wingman_y";
   "rejoin_region_x"; "rejoin_region_y"].

Definition altitude_keys : list string :=
  ["lead_z"; "wingman_z"; "rejoin_region_z"].

(** The lists of the plane all have length [a], the altitude lists all
    have length [b]. *)
Definition aligned (d : gmap string json) (a b : nat) : Prop :=
  Forall (fun k => len_at d k = Some a) planar_keys
  /\ Forall (fun k => len_at d k = Some b) altitude_keys.

(** A record of a flight in the plane or in space. *)
Definition position (x y : Q) (z : option Q) : json :=
  JObj (match z with
        | Some z => <["z" := JNum z]> (<["x" := JNum x]> (<["y" := JNum y]> ∅))
        | None => <["x" := JNum x]> (<["y" := JNum y]> ∅)
        end).

Definition record (episode step : Z) (z : option Q) : json :=
  JObj (<["worker_episode_number" := JNum (inject_Z episode)]>
       (<["episode_ID" := JStr "run"]>
       (<["step_number" := JNum (inject_Z step)]>
       (<["info" := JObj (<["lead" := position 1 2 z]>
                         (<["wingman" := position 3 4 z]>
                         (<["rejoin_region" := position 5 6 z]> ∅)))]>
        ∅)))).
(** A log of two episodes and a record of a third that has nothing but
    its episode number. *)
Definition flight_log : list json :=
  [record 0 0 None; record 1 0 (Some 7);
   JObj (<["worker_episode_number" := JNum 2]> ∅);
   record 1 1 (Some 8)].
End PositionPlots.

(** * Properties *)

(** ** Region-dwell reward *)

Section RejoinReward.
Import RejoinRewardProcessor.









End RejoinReward.

(** ** First-time-in-region bonus *)

Section FirstTimeBonus.
Import RejoinFirstTimeRewardProcessor.

Lemma first_time_step_eq (c : config) (self : state) (dt : Q)
    (status : gmap string value) (v : value) :
  status !! rejoin_status c = Some v ->
  let spent := rejoin_first_time self || rejoin_first_time_applied self in
  exists self',
    step c self dt status
      = Ok (self', if truthy v && negb spent then reward c else 0)
    /\ rejoin_first_time self' = truthy v && negb spent
    /\ rejoin_first_time_applied self' = spent.
Proof.
  intros Hv. unfold step, RewardProcessor.step, _increment, _process, getitem.
  destruct self as [a first applied inr]. cbn.
  destruct first; cbn; rewrite Hv; cbn.
  - rewrite andb_false_r. cbn. eexists. repeat split.
  - destruct (truthy v), applied; cbn; eexists; repeat split.
Qed.

Lemma rewards_spent (c : config) (trace : list (Q * gmap string value))
    (flags : list bool) :
  containment_trace c trace flags ->
  forall self,
    rejoin_first_time self || rejoin_first_time_applied self = true ->
    rewards c self trace = Ok (repeat 0 (length flags)).
Proof.
  induction 1 as [|[dt status] b trace flags [v [Hv Hb]] _ IH];
    intros self Hspent; [reflexivity|].
  cbn [rewards].
  destruct (first_time_step_eq c self dt status v Hv)
    as (self' & Hstep & Hfirst & Happlied).
  cbn in Hstep, Hfirst, Happlied. rewrite Hspent in *.
  rewrite andb_false_r in *. rewrite Hstep. cbn.
  rewrite (IH self'); [reflexivity|].
  rewrite Happlied. apply orb_true_r.
Qed.

Lemma rewards_fresh (c : config) (trace : list (Q * gmap string value))
    (flags : list bool) :
  containment_trace c trace flags ->
  forall self,
    rejoin_first_time self || rejoin_first_time_applied self = false ->
    rewards c self trace = Ok (bonus_once (reward c) flags).
Proof.
  induction 1 as [|[dt status] b trace flags [v [Hv Hb]] Hrest IH];
    intros self Hfresh; [reflexivity|].
  cbn [rewards].
  destruct (first_time_step_eq c self dt status v Hv)
    as (self' & Hstep & Hfirst & Happlied).
  cbn in Hstep, Hfirst, Happlied, Hb. rewrite Hfresh, Hb in *.
  rewrite andb_true_r in *. rewrite Hstep. cbn.
  destruct b; cbn.
  - rewrite (rewards_spent c trace flags Hrest self'); [reflexivity|].
    rewrite Hfirst. reflexivity.
  - rewrite (IH self'); [reflexivity|].
    rewrite Hfirst, Happlied. reflexivity.
Qed.

Lemma repeat_zero_lookup (n i : nat) (r : Q) :
  repeat 0 n !! i = Some r -> r = 0.
Proof.
  revert i. induction n as [|n IH]; intros [|i]; cbn; try discriminate.
  - intros [= <-]. reflexivity.
  - apply IH.
Qed.

Lemma bonus_once_lookup (w : Q) (flags : list bool) :
  forall i r, bonus_once w flags !! i = Some r ->
    r = if first_in_region flags i then w else 0.
Proof.
  unfold first_in_region.
  induction flags as [|b flags IH]; intros i r; [destruct i; discriminate|].
  destruct b, i as [|i]; cbn.
  - intros [= <-]. reflexivity.
  - intros Hr. apply repeat_zero_lookup in Hr. subst r.
    rewrite andb_false_r. reflexivity.
  - intros [= <-]. reflexivity.
  - intros Hr. apply IH in Hr. exact Hr.
Qed.

Lemma first_in_region_unique (flags : list bool) :
  forall i j, first_in_region flags i = true ->
    first_in_region flags j = true -> i = j.
Proof.
  unfold first_in_region.
  induction flags as [|b flags IH]; intros i j.
  - destruct i; discriminate.
  - destruct b, i as [|i], j as [|j]; cbn;
      rewrite ?andb_false_r; try discriminate; try reflexivity.
    intros Hi Hj. f_equal. apply IH; assumption.
Qed.

(** C6. In an episode (a reset, then any sequence of steps) whose
    containment status takes the truth values [flags], the step reward is
    the configured bonus on the first step on which containment is true
    and zero on every other step; so at most one step of the episode has
    a non-zero reward, however containment toggles. *)
Theorem first_time_bonus_once (c : config) (status0 : gmap string value)
    (v0 : value) (trace : list (Q * gmap string value)) (flags : list bool)
    (Hreset : status0 !! rejoin_status c = Some v0)
    (Htrace : containment_trace c trace flags) :
  exists rs,
    episode c status0 trace = Ok rs
    /\ length rs = length trace
    /\ (forall i r, rs !! i = Some r ->
          r = if first_in_region flags i then reward c else 0)
    /\ (forall i j ri rj, rs !! i = Some ri -> rs !! j = Some rj ->
          ~ ri == 0 -> ~ rj == 0 -> i = j).
Proof.
  exists (bonus_once (reward c) flags).
  assert (Hlen : length (bonus_once (reward c) flags) = length trace).
  { rewrite (Forall2_length _ _ _ Htrace). clear.
    induction flags as [|[] flags IH]; cbn; [reflexivity| |].
    - rewrite repeat_length. reflexivity.
    - rewrite IH. reflexivity. }
  split; [|split; [exact Hlen|split]].
  - unfold episode, reset, getitem. rewrite Hreset. cbn [bind].
    apply (rewards_fresh c trace flags Htrace). reflexivity.
  - apply bonus_once_lookup.
  - intros i j ri rj Hi Hj Hri Hrj.
    apply bonus_once_lookup in Hi, Hj.
    apply (first_in_region_unique flags).
    + destruct (first_in_region flags i); [reflexivity|].
      exfalso. apply Hri. rewrite Hi. reflexivity.
    + destruct (first_in_region flags j); [reflexivity|].
      exfalso. apply Hrj. rewrite Hj. reflexivity.
Qed.

Lemma first_time_bonus_once_witness :
  exists rs,
    episode (Scenario.bonus 5) (Scenario.containment false false)
            Scenario.toggling = Ok rs
    /\ rs = [5; 0; 0].
Proof.
  destruct (first_time_bonus_once (Scenario.bonus 5)
              (Scenario.containment false false) (VBool false)
              Scenario.toggling [true; false; true])
    as (rs & Hrun & _).
  - reflexivity.
  - repeat constructor; eexists; split; reflexivity.
  - exists rs. split; [exact Hrun|].
    vm_compute in Hrun. injection Hrun as <-. reflexivity.
Defined.
End FirstTimeBonus.

(** ** Comparisons *)

Lemma Qlt_bool_iff (x y : Q) : Qlt_bool x y = true <-> x < y.
Proof.
  unfold Qlt_bool. rewrite negb_true_iff.
  split.
  - intros Hle. apply Qnot_le_lt. intros Hyx.
    apply Qle_bool_iff in Hyx. congruence.
  - intros Hlt. destruct (Qle_bool y x) eqn:Hle; [|reflexivity].
    apply Qle_bool_iff in Hle. exfalso. exact (Qlt_not_le _ _ Hlt Hle).
Qed.

Lemma Qlt_bool_false_iff (x y : Q) : Qlt_bool x y = false <-> ~ x < y.
Proof.
  rewrite <- Qlt_bool_iff. destruct (Qlt_bool x y); split; intros H;
    try reflexivity; try discriminate.
  exfalso; apply H; reflexivity.
Qed.

Lemma Qle_bool_false_iff (x y : Q) : Qle_bool x y = false <-> ~ x <= y.
Proof.
  rewrite <- Qle_bool_iff. destruct (Qle_bool x y); split; intros H;
    try reflexivity; try discriminate.
  exfalso; apply H; reflexivity.
Qed.

(** ** Duration in region *)

Section RejoinTime.
Import DubinsRejoinTime.

(** C7. [reset] sets the duration to zero.  An [_increment] whose
    containment status is true adds exactly the step size to the
    duration; an [_increment] whose containment status is false leaves
    it at exactly zero, whatever was accumulated before.  [_process]
    returns the duration so updated. *)
Theorem rejoin_time_accumulates_or_resets (c : config) (self : state)
    (dt : Q) (status : gmap string value) (v : value)
    (Hcur : status !! rejoin_status c = Some v) :
  (exists self0, reset c status = Ok self0 /\ _process c self0 = 0)
  /\ exists self',
       _increment c self dt status = Ok self'
       /\ step c self dt status = Ok (self', _process c self')
       /\ (truthy v = true -> _process c self' = _process c self + dt)
       /\ (truthy v = false -> _process c self' = 0).
Proof.
  split.
  - unfold reset, getitem. rewrite Hcur. eexists. split; reflexivity.
  - unfold step, Processor.step, _increment, getitem. rewrite Hcur. cbn [bind].
    destruct (truthy v); eexists; (split; [reflexivity|]);
      (split; [reflexivity|]); split; intros Ht;
      try discriminate; reflexivity.
Qed.

Lemma rejoin_time_accumulates_or_resets_witness :
  (exists self',
     step Scenario.rejoin_time_config Scenario.three_in_region 1
          (Scenario.containment true true) = Ok (self', 3 + 1))
  /\ (exists self',
        step Scenario.rejoin_time_config Scenario.three_in_region 1
             (Scenario.containment false true) = Ok (self', 0)).
Proof.
  split.
  - destruct (rejoin_time_accumulates_or_resets Scenario.rejoin_time_config
                Scenario.three_in_region 1 (Scenario.containment true true)
                (VBool true) eq_refl)
      as (_ & self' & _ & Hstep & Htrue & _).
    exists self'. rewrite Hstep, (Htrue eq_refl). reflexivity.
  - destruct (rejoin_time_accumulates_or_resets Scenario.rejoin_time_config
                Scenario.three_in_region 1 (Scenario.containment false true)
                (VBool false) eq_refl)
      as (_ & self' & _ & Hstep & _ & Hfalse).
    exists self'. rewrite Hstep, (Hfalse eq_refl). reflexivity.
Defined.
End RejoinTime.

(** ** Failure resolution *)

Section FailureStatus.
Import DubinsFailureStatus.

(** C2. The failure status of a step is the first code, in the order
    crash, timeout, distance, whose threshold is violated: "crash" when
    the lead distance is below the aircraft safety margin, whatever the
    other two; otherwise "timeout" when the elapsed time is above the
    timeout; otherwise "distance" when the lead distance is at or above
    the maximum goal distance; otherwise False. *)
Theorem failure_first_in_priority_order (c : config) (self : state) (dt : Q)
    (status : gmap string value) (margin ld te : Q)
    (Hmargin : safety_margin c !! "aircraft" = Some margin)
    (Hld : status !! lead_distance_key c = Some (VNum ld))
    (Hte : status !! time_elapsed_key c = Some (VNum te)) :
  exists self' failure,
    step c self dt status = Ok (self', failure)
    /\ (ld < margin -> failure = VStr "crash")
    /\ (~ ld < margin -> timeout c < te -> failure = VStr "timeout")
    /\ (~ ld < margin -> ~ timeout c < te -> max_goal_dist c <= ld ->
        failure = VStr "distance")
    /\ (~ ld < margin -> ~ timeout c < te -> ~ max_goal_dist c <= ld ->
        failure = VBool false).
Proof.
  unfold step, Processor.step, _increment, _process, getitem.
  rewrite Hld, Hte. cbn [bind lead_distance time_elapsed as_num].
  rewrite Hmargin. cbn [bind].
  destruct (Qlt_bool ld margin) eqn:Hcrash.
  { apply Qlt_bool_iff in Hcrash.
    eexists; eexists. split; [reflexivity|].
    repeat split; intros; try reflexivity; contradiction. }
  apply Qlt_bool_false_iff in Hcrash. cbn [bind].
  destruct (Qlt_bool (timeout c) te) eqn:Htimeout.
  { apply Qlt_bool_iff in Htimeout.
    eexists; eexists. split; [reflexivity|].
    repeat split; intros; try reflexivity; contradiction. }
  apply Qlt_bool_false_iff in Htimeout.
  destruct (Qle_bool (max_goal_dist c) ld) eqn:Hdist.
  { apply Qle_bool_iff in Hdist.
    eexists; eexists. split; [reflexivity|].
    repeat split; intros; try reflexivity; contradiction. }
  apply Qle_bool_false_iff in Hdist.
  eexists; eexists. split; [reflexivity|].
  repeat split; intros; try reflexivity; contradiction.
Qed.

(** The scenario of the claim: thresholds crash 10, timeout 500, maximum
    goal distance 50000; a lead distance of 9 at elapsed time 300 is a
    crash. *)
Lemma failure_first_in_priority_order_witness :
  exists self',
    step Scenario.failure_thresholds Scenario.failure_initial 1
         (Scenario.flight 9 300) = Ok (self', VStr "crash").
Proof.
  destruct (failure_first_in_priority_order Scenario.failure_thresholds
              Scenario.failure_initial 1 (Scenario.flight 9 300) 10 9 300
              eq_refl eq_refl eq_refl)
    as (self' & failure & Hstep & Hcrash & _).
  exists self'. rewrite Hstep, Hcrash; reflexivity.
Defined.

(** Both the timeout and the distance threshold violated: the code
    declared earlier, "timeout", is returned. *)
Lemma failure_timeout_before_distance :
  exists self',
    step Scenario.failure_thresholds Scenario.failure_initial 1
         (Scenario.flight 60000 501) = Ok (self', VStr "timeout").
Proof. eexists. vm_compute. reflexivity. Qed.
End FailureStatus.

(** ** Distance-delta reward *)

Section DistanceChange.
Import RejoinDistanceChangeRewardProcessor.
Context {obj : Type} `{Geometry obj}.

Lemma distance_change_step_eq (c : config) (self : state)
    (env_objs : gmap string obj) (dt : Q) (status : gmap string value)
    (w r : obj) (v : value) :
  env_objs !! wingman c = Some w ->
  env_objs !! rejoin_region c = Some r ->
  status !! rejoin_status c = Some v ->
  exists self',
    step c self env_objs dt status
      = Ok (self', if negb (truthy v)
                   then (distance w r - cur_distance self) * reward c else 0)
    /\ prev_distance self' = cur_distance self
    /\ cur_distance self' = distance w r.
Proof.
  intros Hw Hr Hv.
  unfold step, RewardProcessor.step, _increment, _process, getitem.
  rewrite Hw, Hr, Hv. cbn.
  eexists. split; [reflexivity|]. split; reflexivity.
Qed.
End DistanceChange.

(** ** Docking reward *)

(** A lookup under the four updates of the component totals. *)
Ltac lookup_totals :=
  repeat (rewrite lookup_insert_ne by done); rewrite lookup_insert_eq.

Section DockingReward.
Import DockingRewardProcessor.
Context {obj : Type} `{Geometry obj}.

Lemma add_to_eq (d : gmap string Q) (k : string) (old x : Q) :
  d !! k = Some old -> add_to d k x = Ok (<[k := old + x]> d).
Proof. intros Hk. unfold add_to, getitem. rewrite Hk. reflexivity. Qed.

Lemma gen_reward_eq (c : config) (self : state) (env_objs : gmap string obj)
    (timestep : Q) (status_dict : gmap string value) (deputy region : obj)
    (sf : Q * Q) (t d s f : Q) :
  env_objs !! "deputy" = Some deputy ->
  env_objs !! "docking_region" = Some region ->
  terminal_rewards c status_dict = Ok sf ->
  reward_component_totals self !! "time" = Some t ->
  reward_component_totals self !! "distance_change" = Some d ->
  reward_component_totals self !! "success" = Some s ->
  reward_component_totals self !! "failure" = Some f ->
  gen_reward c self env_objs timestep status_dict =
    Ok ({| prev_distance := distance deputy region;
           step_reward := step_sum c self deputy region sf;
           total_reward :=
             total_reward self + step_sum c self deputy region sf;
           reward_component_totals :=
             <["failure" := f + snd sf]>
               (<["success" := s + fst sf]>
                 (<["distance_change" :=
                      d + (0 + (distance deputy region - prev_distance self)
                               * dist_change c)]>
                   (<["time" := t + (0 + time_decay c)]>
                     (reward_component_totals self)))) |},
        step_sum c self deputy region sf).
Proof.
  intros Hdep Hreg Hsf Ht Hd Hs Hf.
  unfold gen_reward, getitem. rewrite Hdep, Hreg. cbn [bind].
  rewrite Hsf. cbn [bind].
  rewrite (add_to_eq _ "time" t) by exact Ht. cbn [bind].
  rewrite (add_to_eq _ "distance_change" d)
    by (rewrite lookup_insert_ne by done; exact Hd).
  cbn [bind].
  rewrite (add_to_eq _ "success" s)
    by (rewrite !lookup_insert_ne by done; exact Hs).
  cbn [bind].
  rewrite (add_to_eq _ "failure" f)
    by (rewrite !lookup_insert_ne by done; exact Hf).
  reflexivity.
Qed.
Lemma gen_reward_inv (c : config) (self self' : state)
    (env_objs : gmap string obj) (timestep r : Q)
    (status_dict : gmap string value) :
  gen_reward c self env_objs timestep status_dict = Ok (self', r) ->
  exists deputy region sf,
    env_objs !! "deputy" = Some deputy
    /\ env_objs !! "docking_region" = Some region
    /\ terminal_rewards c status_dict = Ok sf.
Proof.
  unfold gen_reward, getitem.
  destruct (env_objs !! "deputy") as [deputy|]; [|discriminate].
  destruct (env_objs !! "docking_region") as [region|]; [|discriminate].
  cbn [bind].
  destruct (terminal_rewards c status_dict) as [sf|]; [|discriminate].
  intros _. exists deputy, region, sf. repeat split.
Qed.

Lemma totals_consistent_reset (c : config) (env_objs : gmap string obj)
    (self : state) :
  reset c env_objs = Ok self -> totals_consistent self.
Proof.
  unfold reset, getitem.
  destruct (env_objs !! "deputy"); [|discriminate].
  destruct (env_objs !! "docking_region"); [|discriminate].
  cbn [bind]. intros [= <-].
  exists 0, 0, 0, 0. cbn [reward_component_totals total_reward].
  repeat split; try (lookup_totals; reflexivity).
Qed.

Lemma totals_consistent_gen_reward (c : config) (self self' : state)
    (env_objs : gmap string obj) (timestep r : Q)
    (status_dict : gmap string value) :
  totals_consistent self ->
  gen_reward c self env_objs timestep status_dict = Ok (self', r) ->
  totals_consistent self'.
Proof.
  intros (t & d & s & f & Ht & Hd & Hs & Hf & Htot) Hgen.
  destruct (gen_reward_inv _ _ _ _ _ _ _ Hgen)
    as (deputy & region & sf & Hdep & Hreg & Hsf).
  rewrite (gen_reward_eq c self env_objs timestep status_dict deputy region
             sf t d s f Hdep Hreg Hsf Ht Hd Hs Hf) in Hgen.
  injection Hgen as <- _.
  eexists _, _, _, _. cbn [reward_component_totals total_reward].
  repeat split; try (lookup_totals; reflexivity).
  rewrite Htot. unfold step_sum. ring.
Qed.

Lemma reachable_totals_consistent (c : config) (self : state) :
  reachable c self -> totals_consistent self.
Proof.
  induction 1 as [env_objs self Hreset | self env_objs dt status self' r _ IH Hgen].
  - exact (totals_consistent_reset c env_objs self Hreset).
  - exact (totals_consistent_gen_reward c self self' env_objs dt r status
             IH Hgen).
Qed.

End DockingReward.

(** ** Docking reward in binary64 arithmetic *)

Section DockingReward64.
Import PrimFloat Binary64 Binary64.DockingRewardProcessor.
Local Open Scope float_scope.
Context {obj : Type} `{Binary64.Geometry obj}.

Lemma add_to_total_eq (self : state) (h : list (gmap string float))
    (d : gmap string float) (k : string) (old x : float) :
  h !! reward_component_totals self = Some d ->
  d !! k = Some old ->
  add_to_total k x self h
  = (self, <[reward_component_totals self := <[k := old + x]> d]> h, Ok tt).
Proof. intros Hd Hk. unfold add_to_total. rewrite Hd, Hk. reflexivity. Qed.

Lemma store_lookup_insert (h : list (gmap string float)) (l : nat)
    (d d' : gmap string float) :
  h !! l = Some d -> <[l := d']> h !! l = Some d'.
Proof.
  intros Hl. apply list_lookup_insert_eq.
  apply lookup_lt_is_Some. eexists. exact Hl.
Qed.

(** A call of [gen_reward] that returns: what it returns and what it
    has assigned. *)
Lemma gen_reward_returns_eq (c : config) (self : state)
    (h : list (gmap string float)) (env_objs : gmap string obj)
    (timestep : float) (status_dict : gmap string value)
    (deputy region : obj) (sf : float * float)
    (d : gmap string float) (t dc s f : float) :
  env_objs !! "deputy" = Some deputy ->
  env_objs !! "docking_region" = Some region ->
  terminal_rewards c status_dict = Ok sf ->
  h !! reward_component_totals self = Some d ->
  component_totals_of d t dc s f ->
  let time_reward := 0 + time_decay c in
  let distance_change_reward :=
    0 + (distance deputy region - prev_distance self) * dist_change c in
  let reward :=
    0 + time_reward + distance_change_reward + fst sf + snd sf in
  gen_reward c env_objs timestep status_dict self h
  = ({| prev_distance := distance deputy region;
        step_reward := reward;
        total_reward := total_reward self + reward;
        reward_component_totals := reward_component_totals self |},
     <[reward_component_totals self :=
         <["failure" := f + snd sf]>
           (<["success" := s + fst sf]>
              (<["distance_change" := dc + distance_change_reward]>
                 (<["time" := t + time_reward]> d)))]> h,
     Ok reward).
Proof.
  intros Hdep Hreg Hsf Hd (Ht & Hdc & Hs & Hf). cbv zeta.
  unfold gen_reward, then_, lift, getitem, get_prev_distance,
    set_prev_distance, set_step_reward, get_total_reward, set_total_reward,
    ret.
  rewrite Hdep, Hreg, Hsf.
  cbn [prev_distance step_reward total_reward reward_component_totals].
  set (l := reward_component_totals self).
  set (self1 := {| prev_distance := distance deputy region;
                   step_reward := _; total_reward := _;
                   reward_component_totals := l |}).
  assert (Hl1 : reward_component_totals self1 = l) by reflexivity.
  rewrite (add_to_total_eq self1 h d "time" t _ Hd Ht). rewrite Hl1.
  rewrite (add_to_total_eq self1 _ _ "distance_change" dc _
             (store_lookup_insert h l d _ Hd)).
  2: { rewrite lookup_insert_ne by done. exact Hdc. }
  rewrite Hl1, (list_insert_insert_eq h).
  rewrite (add_to_total_eq self1 _ _ "success" s _
             (store_lookup_insert h l d _ Hd)).
  2: { rewrite !lookup_insert_ne by done. exact Hs. }
  rewrite Hl1, (list_insert_insert_eq h).
  rewrite (add_to_total_eq self1 _ _ "failure" f _
             (store_lookup_insert h l d _ Hd)).
  2: { rewrite !lookup_insert_ne by done. exact Hf. }
  rewrite Hl1, (list_insert_insert_eq h).
  reflexivity.
Qed.

(** A call of [gen_reward] that raises in the test of the status
    mapping: the distance of this call is already assigned. *)
Lemma gen_reward_raises_eq (c : config) (self : state)
    (h : list (gmap string float)) (env_objs : gmap string obj)
    (timestep : float) (status_dict : gmap string value)
    (deputy region : obj) (e : exn) :
  env_objs !! "deputy" = Some deputy ->
  env_objs !! "docking_region" = Some region ->
  terminal_rewards c status_dict = Raise e ->
  gen_reward c env_objs timestep status_dict self h
  = ({| prev_distance := distance deputy region;
        step_reward := step_reward self;
        total_reward := total_reward self;
        reward_component_totals := reward_component_totals self |},
     h, Raise e).
Proof.
  intros Hdep Hreg Hsf.
  unfold gen_reward, then_, lift, getitem, get_prev_distance,
    set_prev_distance.
  rewrite Hdep, Hreg, Hsf. reflexivity.
Qed.

(** The three ways a call of [gen_reward] ends in a state that holds
    the four totals: it raises on the environment with nothing
    assigned, it raises on the status mapping with the distance
    assigned, or it returns. *)
Lemma gen_reward_cases (c : config) (self self' : state)
    (h h' : list (gmap string float)) (env_objs : gmap string obj)
    (timestep : float) (status_dict : gmap string value)
    (out : result float) :
  has_totals h self ->
  gen_reward c env_objs timestep status_dict self h = (self', h', out) ->
  (exists e, out = Raise e /\ self' = self /\ h' = h)
  \/ (exists deputy region e,
        env_objs !! "deputy" = Some deputy
        /\ env_objs !! "docking_region" = Some region
        /\ terminal_rewards c status_dict = Raise e
        /\ out = Raise e /\ h' = h
        /\ reward_component_totals self' = reward_component_totals self
        /\ prev_distance self' = distance deputy region)
  \/ (exists deputy region sf d t dc s f,
        env_objs !! "deputy" = Some deputy
        /\ env_objs !! "docking_region" = Some region
        /\ terminal_rewards c status_dict = Ok sf
        /\ h !! reward_component_totals self = Some d
        /\ component_totals_of d t dc s f).
Proof.
  intros (d & t & dc & s & f & Hd & Hcomp) Hgen.
  destruct (env_objs !! "deputy") as [deputy|] eqn:Hdep.
  - destruct (env_objs !! "docking_region") as [region|] eqn:Hreg.
    + destruct (terminal_rewards c status_dict) as [sf|e] eqn:Hsf.
      * right. right. exists deputy, region, sf, d, t, dc, s, f.
        repeat split; try assumption; apply Hcomp.
      * right. left.
        rewrite (gen_reward_raises_eq c self h env_objs timestep status_dict
                   deputy region e Hdep Hreg Hsf) in Hgen.
        injection Hgen as <- <- <-.
        exists deputy, region, e. repeat split.
    + left. unfold gen_reward, then_, lift, getitem in Hgen.
      rewrite Hdep, Hreg in Hgen. injection Hgen as <- <- <-.
      eexists. repeat split.
  - left. unfold gen_reward, then_, lift, getitem in Hgen.
    rewrite Hdep in Hgen. injection Hgen as <- <- <-.
    eexists. repeat split.
Qed.

Lemma reset_inv (c : config) (env_objs : gmap string obj)
    (h h' : list (gmap string float)) (self : state) :
  reset c env_objs h = Ok (self, h') ->
  exists deputy region,
    env_objs !! "deputy" = Some deputy
    /\ env_objs !! "docking_region" = Some region
    /\ self = {| prev_distance := distance deputy region;
                 step_reward := 0; total_reward := 0;
                 reward_component_totals := length h |}
    /\ h' = (h ++ [<["time" := 0]> (<["distance_change" := 0]>
                     (<["success" := 0]> (<["failure" := 0]> ∅)))])%list.
Proof.
  unfold reset, getitem.
  destruct (env_objs !! "deputy") as [deputy|]; [|discriminate].
  destruct (env_objs !! "docking_region") as [region|]; [|discriminate].
  cbn [bind]. intros [= <- <-]. exists deputy, region. repeat split.
Qed.

Lemma has_totals_reset (c : config) (env_objs : gmap string obj)
    (h h' : list (gmap string float)) (self : state) :
  reset c env_objs h = Ok (self, h') ->
  h' !! reward_component_totals self
  = Some (<["time" := 0]> (<["distance_change" := 0]>
            (<["success" := 0]> (<["failure" := 0]> ∅)))).
Proof.
  intros Hreset.
  destruct (reset_inv c env_objs h h' self Hreset)
    as (deputy & region & _ & _ & -> & ->).
  cbn [reward_component_totals].
  apply (list_lookup_middle h [] _ (length h) eq_refl).
Qed.

Lemma reachable_has_totals (c : config) (self : state)
    (h : list (gmap string float)) :
  reachable c self h -> has_totals h self.
Proof.
  induction 1 as [env_objs h self h' Hreset
                 | self h env_objs timestep status_dict self' h' out _ IH Hgen].
  - eexists _, 0, 0, 0, 0.
    split; [exact (has_totals_reset c env_objs h h' self Hreset)|].
    repeat split; repeat (rewrite lookup_insert_ne by done);
      apply lookup_insert_eq.
  - destruct (gen_reward_cases c self self' h h' env_objs timestep
                status_dict out IH Hgen)
      as [(e & _ & -> & ->)
         | [(deputy & region & e & _ & _ & _ & _ & -> & Hl & _)
           | (deputy & region & sf & d & t & dc & s & f
              & Hdep & Hreg & Hsf & Hd & Hcomp)]].
    + exact IH.
    + destruct IH as (d & t & dc & s & f & Hd & Hcomp).
      exists d, t, dc, s, f. rewrite Hl. split; assumption.
    + rewrite (gen_reward_returns_eq c self h env_objs timestep status_dict
                 deputy region sf d t dc s f Hdep Hreg Hsf Hd Hcomp) in Hgen.
      injection Hgen as <- <- _.
      eexists _, _, _, _, _. cbn [reward_component_totals].
      split; [exact (store_lookup_insert h _ d _ Hd)|].
      repeat split; repeat (rewrite lookup_insert_ne by done);
        apply lookup_insert_eq.
Qed.

(** C10, amended.  [reset] sets the step reward, the running total and
    the four component totals to 0.  In every state of a run, a call of
    [gen_reward] on an environment holding the deputy and the docking
    region and a status record whose terminal condition can be
    rewarded returns the reward it records as [step_reward]; this
    reward is the sum, taken in the order time, distance_change,
    success, failure, of the four amounts the call adds to the
    component totals, and the call adds it to the running total.  The
    running total and the component totals are separate sums of
    rounded additions. *)
Theorem docking_reward_totals_accumulate (c : config) (self : state)
    (h : list (gmap string float)) (env_objs : gmap string obj)
    (timestep : float) (status_dict : gmap string value)
    (deputy region : obj) (sf : float * float)
    (Hreach : reachable c self h)
    (Hdep : env_objs !! "deputy" = Some deputy)
    (Hreg : env_objs !! "docking_region" = Some region)
    (Hsf : terminal_rewards c status_dict = Ok sf) :
  (forall env0 h0 self0 h1,
     reset c env0 h0 = Ok (self0, h1) ->
     step_reward self0 = 0 /\ total_reward self0 = 0
     /\ exists d0, h1 !! reward_component_totals self0 = Some d0
                   /\ component_totals_of d0 0 0 0 0)
  /\ exists d t dc s f,
       h !! reward_component_totals self = Some d
       /\ component_totals_of d t dc s f
       /\ let time_reward := 0 + time_decay c in
          let distance_change_reward :=
            0 + (distance deputy region - prev_distance self)
                * dist_change c in
          let reward :=
            0 + time_reward + distance_change_reward + fst sf + snd sf in
          exists self' h' d',
            gen_reward c env_objs timestep status_dict self h
            = (self', h', Ok reward)
            /\ step_reward self' = reward
            /\ total_reward self' = total_reward self + reward
            /\ h' !! reward_component_totals self' = Some d'
            /\ component_totals_of d' (t + time_reward)
                 (dc + distance_change_reward) (s + fst sf) (f + snd sf).
Proof.
  split.
  - intros env0 h0 self0 h1 Hreset.
    pose proof (has_totals_reset c env0 h0 h1 self0 Hreset) as Hd0.
    destruct (reset_inv c env0 h0 h1 self0 Hreset)
      as (deputy0 & region0 & _ & _ & -> & _).
    split; [reflexivity|]. split; [reflexivity|].
    eexists. split; [exact Hd0|].
    repeat split; repeat (rewrite lookup_insert_ne by done);
      apply lookup_insert_eq.
  - destruct (reachable_has_totals c self h Hreach)
      as (d & t & dc & s & f & Hd & Hcomp).
    exists d, t, dc, s, f. split; [exact Hd|]. split; [exact Hcomp|].
    cbv zeta. eexists _, _, _.
    split; [exact (gen_reward_returns_eq c self h env_objs timestep
                     status_dict deputy region sf d t dc s f
                     Hdep Hreg Hsf Hd Hcomp)|].
    cbn [step_reward total_reward reward_component_totals].
    split; [reflexivity|]. split; [reflexivity|].
    split; [exact (store_lookup_insert h _ d _ Hd)|].
    repeat split; repeat (rewrite lookup_insert_ne by done);
      apply lookup_insert_eq.
Qed.
End DockingReward64.

Section DockingRewardRounding.
Import PrimFloat Binary64 Binary64.DockingRewardProcessor.
Local Open Scope float_scope.

(** C10, as the claim states it, fails on the code from the second
    call on: the running total and the component totals are added up
    separately and round differently.  With a time decay of -0.01 and a
    distance weight of -0.1, the deputy moves from distance 5 to 3 and
    then to 0 with no terminal condition: the step rewards are 0.19 and
    0.29000000000000004, the running total is 0.48000000000000004,
    and the component totals are -0.02, 0.5, 0 and 0, whose sum is
    0.48. *)
Lemma docking_reward_totals_differ :
  exists self0 h0 self1 h1 self2 h2 d,
    reset Line.docking_rewards (Line.docking_env 5) [] = Ok (self0, h0)
    /\ gen_reward Line.docking_rewards (Line.docking_env 3) 1
         (Scenario.outcome (VBool false) (VBool false)) self0 h0
       = (self1, h1, Ok 0.19)
    /\ gen_reward Line.docking_rewards (Line.docking_env 0) 1
         (Scenario.outcome (VBool false) (VBool false)) self1 h1
       = (self2, h2, Ok 0.29000000000000004)
    /\ total_reward self2 = 0.48000000000000004
    /\ h2 !! reward_component_totals self2 = Some d
    /\ component_totals_of d (-0.02) 0.5 0 0
    /\ -0.02 + 0.5 + 0 + 0 = 0.48
    /\ (0.48000000000000004 =? 0.48) = false.
Proof.
  pose (status := Scenario.outcome (VBool false) (VBool false)).
  pose (zeros := <["time" := 0]> (<["distance_change" := 0]>
                   (<["success" := 0]> (<["failure" := 0]> ∅)))
                 : gmap string float).
  assert (Hsf : terminal_rewards Line.docking_rewards status = Ok (0, 0))
    by reflexivity.
  assert (Hzeros : component_totals_of zeros 0 0 0 0).
  { repeat split; unfold zeros; repeat (rewrite lookup_insert_ne by done);
      apply lookup_insert_eq. }
  pose proof (gen_reward_returns_eq Line.docking_rewards
                {| prev_distance := 5; step_reward := 0; total_reward := 0;
                   reward_component_totals := 0 |}
                [zeros] (Line.docking_env 3) 1 status
                {| Line.pos := 3 |} {| Line.pos := 0 |} (0, 0) zeros 0 0 0 0
                eq_refl eq_refl Hsf eq_refl Hzeros) as Hgen1.
  cbv zeta in Hgen1.
  cbn [prev_distance total_reward reward_component_totals fst snd
       insert list_insert] in Hgen1.
  match type of Hgen1 with
  | _ = (?s1, [?d1], _) =>
      assert (Hd1 : component_totals_of d1 (-0.01) 0.2 0 0)
  end.
  { repeat split; repeat (rewrite lookup_insert_ne by done);
      rewrite lookup_insert_eq; f_equal; vm_compute; reflexivity. }
  match type of Hgen1 with
  | _ = (?s1, [?d1], _) =>
      pose proof (gen_reward_returns_eq Line.docking_rewards s1 [d1]
                    (Line.docking_env 0) 1 status
                    {| Line.pos := 0 |} {| Line.pos := 0 |} (0, 0) d1
                    (-0.01) 0.2 0 0 eq_refl eq_refl Hsf eq_refl Hd1)
        as Hgen2
  end.
  cbv zeta in Hgen2.
  cbn [prev_distance total_reward reward_component_totals fst snd
       insert list_insert] in Hgen2.
  eexists _, _, _, _, _, _, _.
  split; [reflexivity|].
  split; [etransitivity; [exact Hgen1|]; f_equal; f_equal;
          vm_compute; reflexivity|].
  split; [etransitivity; [exact Hgen2|]; f_equal; f_equal;
          vm_compute; reflexivity|].
  split; [vm_compute; reflexivity|].
  split; [reflexivity|].
  split.
  { repeat split; repeat (rewrite lookup_insert_ne by done);
      rewrite lookup_insert_eq; f_equal; vm_compute; reflexivity. }
  split; reflexivity.
Qed.

Lemma docking_reward_totals_accumulate_witness :
  exists self0 h0 self1 h1 d1,
    reset Line.docking_rewards (Line.docking_env 5) [] = Ok (self0, h0)
    /\ gen_reward Line.docking_rewards (Line.docking_env 3) 1
         (Scenario.outcome (VBool false) (VBool false)) self0 h0
       = (self1, h1, Ok (0 + (0 + -0.01) + (0 + (abs (3 - 0) - 5) * -0.1)
                         + 0 + 0))
    /\ total_reward self1
       = 0 + (0 + (0 + -0.01) + (0 + (abs (3 - 0) - 5) * -0.1) + 0 + 0)
    /\ h1 !! reward_component_totals self1 = Some d1
    /\ component_totals_of d1
         (0 + (0 + -0.01)) (0 + (0 + (abs (3 - 0) - 5) * -0.1))
         (0 + 0) (0 + 0).
Proof.
  pose (self0 := {| prev_distance := 5; step_reward := 0; total_reward := 0;
                    reward_component_totals := 0 |}).
  pose (h0 := [<["time" := 0]> (<["distance_change" := 0]>
                 (<["success" := 0]> (<["failure" := 0]> ∅)))]
              : list (gmap string float)).
  assert (Hreset : reset Line.docking_rewards (Line.docking_env 5) []
                   = Ok (self0, h0)) by reflexivity.
  destruct (docking_reward_totals_accumulate Line.docking_rewards
              self0 h0 (Line.docking_env 3) 1
              (Scenario.outcome (VBool false) (VBool false))
              {| Line.pos := 3 |} {| Line.pos := 0 |} (0, 0)
              (reachable_reset Line.docking_rewards (Line.docking_env 5)
                 [] self0 h0 Hreset)
              eq_refl eq_refl eq_refl)
    as (_ & d & t & dc & s & f & Hd & Hcomp & Hcall).
  cbv zeta in Hcall.
  destruct Hcall as (self1 & h1 & d1 & Hgen & _ & Htot & Hd1 & Hcomp1).
  injection Hd as <-.
  destruct Hcomp as (Ht & Hdc & Hs & Hf).
  rewrite lookup_insert_eq in Ht. injection Ht as <-.
  rewrite lookup_insert_ne, lookup_insert_eq in Hdc by done.
  injection Hdc as <-.
  rewrite !lookup_insert_ne, lookup_insert_eq in Hs by done.
  injection Hs as <-.
  rewrite !lookup_insert_ne, lookup_insert_eq in Hf by done.
  injection Hf as <-.
  exists self0, h0, self1, h1, d1. split; [exact Hreset|].
  split; [exact Hgen|]. split; [exact Htot|].
  split; [exact Hd1 | exact Hcomp1].
Defined.
End DockingRewardRounding.


(** ** Distance-delta reward, both processors *)

(** C3, as the claim states it, fails for the rejoin processor while the
    containment status is true: the wingman moves from distance 10 to
    distance 7 with weight 1, and the step value is 0, not -3. *)
Lemma distance_change_in_region_counterexample :
  exists self0 self1 r,
    RejoinDistanceChangeRewardProcessor.reset (Scenario.closing 1)
      (Scenario.rejoin_env 10) (Scenario.containment true false) = Ok self0
    /\ RejoinDistanceChangeRewardProcessor.step (Scenario.closing 1) self0
         (Scenario.rejoin_env 7) 1 (Scenario.containment true true)
       = Ok (self1, r)
    /\ RejoinDistanceChangeRewardProcessor.prev_distance self1 == 10
    /\ RejoinDistanceChangeRewardProcessor.cur_distance self1 == 7
    /\ ~ r == (7 - 10) * 1.
Proof.
  eexists; eexists; eexists.
  split; [reflexivity|]. split; [reflexivity|].
  split; [reflexivity|]. split; [reflexivity|].
  intros Hr. discriminate Hr.
Qed.

Section DistanceDelta.
Context {obj : Type} `{Geometry obj}.

(** C3, amended.  The step value of RejoinDistanceChangeRewardProcessor
    equals (distance_t - distance_{t-1}) * weight, sign included, on
    every step whose containment status is false, and is zero on every
    step whose containment status is true; the distance of this step is
    the previous distance of the next one.  In DockingRewardProcessor
    the distance_change component of every step equals
    (distance_t - distance_{t-1}) * dist_change. *)
Theorem distance_delta_reward
    (rc : RejoinDistanceChangeRewardProcessor.config)
    (rself : RejoinDistanceChangeRewardProcessor.state)
    (renv : gmap string obj) (rdt : Q) (rstatus : gmap string value)
    (w g : obj) (v : value)
    (dc : DockingRewardProcessor.config)
    (dself : DockingRewardProcessor.state)
    (denv : gmap string obj) (ddt : Q) (dstatus : gmap string value)
    (deputy region : obj) (sf : Q * Q)
    (Hw : renv !! RejoinDistanceChangeRewardProcessor.wingman rc = Some w)
    (Hg : renv !! RejoinDistanceChangeRewardProcessor.rejoin_region rc
          = Some g)
    (Hv : rstatus !! RejoinDistanceChangeRewardProcessor.rejoin_status rc
          = Some v)
    (Hreach : DockingRewardProcessor.reachable dc dself)
    (Hdep : denv !! "deputy" = Some deputy)
    (Hreg : denv !! "docking_region" = Some region)
    (Hsf : DockingRewardProcessor.terminal_rewards dc dstatus = Ok sf) :
  (exists self' r,
     RejoinDistanceChangeRewardProcessor.step rc rself renv rdt rstatus
       = Ok (self', r)
     /\ (truthy v = false ->
         r = (distance w g
              - RejoinDistanceChangeRewardProcessor.cur_distance rself)
             * RejoinDistanceChangeRewardProcessor.reward rc)
     /\ (truthy v = true -> r = 0)
     /\ RejoinDistanceChangeRewardProcessor.prev_distance self'
        = RejoinDistanceChangeRewardProcessor.cur_distance rself
     /\ RejoinDistanceChangeRewardProcessor.cur_distance self'
        = distance w g)
  /\ (exists self' r cd,
        DockingRewardProcessor.gen_reward dc dself denv ddt dstatus
          = Ok (self', r)
        /\ DockingRewardProcessor.contribution "distance_change" dself self'
           = Ok cd
        /\ cd == (distance deputy region
                  - DockingRewardProcessor.prev_distance dself)
                 * DockingRewardProcessor.dist_change dc
        /\ DockingRewardProcessor.prev_distance self'
           = distance deputy region).
Proof.
  split.
  - destruct (distance_change_step_eq rc rself renv rdt rstatus w g v
                Hw Hg Hv) as (self' & Hstep & Hprev & Hcur).
    eexists; eexists. split; [exact Hstep|].
    split; [intros ->; reflexivity|].
    split; [intros ->; reflexivity|].
    split; assumption.
  - destruct (reachable_totals_consistent dc dself Hreach)
      as (t & d & s & f & Ht & Hd & Hs & Hf & _).
    eexists; eexists; eexists.
    split; [exact (gen_reward_eq dc dself denv ddt dstatus deputy region sf
                     t d s f Hdep Hreg Hsf Ht Hd Hs Hf)|].
    unfold DockingRewardProcessor.contribution, getitem.
    cbn [DockingRewardProcessor.reward_component_totals
         DockingRewardProcessor.prev_distance].
    rewrite Hd. cbn [bind].
    split; [lookup_totals; reflexivity|].
    split; [ring | reflexivity].
Qed.
End DistanceDelta.

Lemma distance_delta_reward_witness :
  (exists self' r,
     RejoinDistanceChangeRewardProcessor.step (Scenario.closing 1)
       {| RejoinDistanceChangeRewardProcessor.acc := RewardProcessor.reset;
          RejoinDistanceChangeRewardProcessor.prev_distance := 200;
          RejoinDistanceChangeRewardProcessor.cur_distance := 200;
          RejoinDistanceChangeRewardProcessor.in_rejoin := VBool false |}
       (Scenario.rejoin_env 190) 1 (Scenario.containment false false)
     = Ok (self', r)
     /\ r == - (10)).
Proof.
  destruct (distance_delta_reward (Scenario.closing 1)
              {| RejoinDistanceChangeRewardProcessor.acc :=
                   RewardProcessor.reset;
                 RejoinDistanceChangeRewardProcessor.prev_distance := 200;
                 RejoinDistanceChangeRewardProcessor.cur_distance := 200;
                 RejoinDistanceChangeRewardProcessor.in_rejoin :=
                   VBool false |}
              (Scenario.rejoin_env 190) 1 (Scenario.containment false false)
              {| LineGeometry.pos := 190; LineGeometry.radius := 0 |}
              {| LineGeometry.pos := 0; LineGeometry.radius := 50 |}
              (VBool false)
              Scenario.docking_rewards _ (Scenario.docking_env 3) 1
              (Scenario.outcome (VBool false) (VBool false))
              {| LineGeometry.pos := 3; LineGeometry.radius := 0 |}
              {| LineGeometry.pos := 0; LineGeometry.radius := 1 |}
              (0, 0)
              eq_refl eq_refl eq_refl
              (DockingRewardProcessor.reachable_reset
                 Scenario.docking_rewards (Scenario.docking_env 5) _ eq_refl)
              eq_refl eq_refl eq_refl)
    as ((self' & r & Hstep & Hout & _) & _).
  exists self', r. split; [exact Hstep|].
  rewrite (Hout eq_refl). reflexivity.
Defined.

(** ** Success and failure in one status record *)

(** One step of the docking constraint processor, when the environment
    holds the deputy and the docking region. *)
Lemma docking_step_eq {obj : Type} `{Geometry obj}
    (c : DockingConstraintProcessor.config)
    (self : DockingConstraintProcessor.state)
    (env_objs : gmap string obj) (timestep : Q) (deputy region : obj) :
  env_objs !! "deputy" = Some deputy ->
  env_objs !! "docking_region" = Some region ->
  DockingConstraintProcessor.step c self env_objs timestep =
    Ok ({| DockingConstraintProcessor.time_elapsed :=
             DockingConstraintProcessor.time_elapsed self + timestep;
           DockingConstraintProcessor.in_docking :=
             DockingConstraintProcessor.in_docking self |},
        <["success" := VBool (contains region deputy)]>
          (<["failure" :=
               if Qlt_bool (DockingConstraintProcessor.timeout c)
                    (DockingConstraintProcessor.time_elapsed self + timestep)
               then VStr "timeout"
               else if Qle_bool
                         (DockingConstraintProcessor.max_goal_distance c)
                         (distance deputy region)
               then VStr "distance" else VBool false]>
            (<["in_docking" := VBool (contains region deputy)]>
              (<["time_elapsed" :=
                   VNum (DockingConstraintProcessor.time_elapsed self
                         + timestep)]> ∅)))).
Proof.
  intros Hdep Hreg.
  unfold DockingConstraintProcessor.step,
    DockingConstraintProcessor.check_constraints,
    DockingConstraintProcessor.check_docking_cond, getitem.
  rewrite Hdep, Hreg. cbn [bind DockingConstraintProcessor.time_elapsed].
  destruct (contains region deputy); reflexivity.
Qed.

(** C4, as the claim states it, fails in a reachable state: with a
    timeout of 2 and steps of 1, two steps away from the docking region
    end with neither success nor failure; on the third step the deputy
    is in the docking region while the elapsed time 3 exceeds the
    timeout, and the status record holds success = True together with
    failure = "timeout". *)
Lemma docking_success_with_failure_counterexample :
  exists self1 status1 self2 status2 self3 status3,
    DockingConstraintProcessor.step Scenario.docking_limits
      DockingConstraintProcessor.reset (Scenario.docking_env 5) 1
      = Ok (self1, status1)
    /\ status1 !! "success" = Some (VBool false)
    /\ status1 !! "failure" = Some (VBool false)
    /\ DockingConstraintProcessor.step Scenario.docking_limits self1
         (Scenario.docking_env 3) 1 = Ok (self2, status2)
    /\ status2 !! "success" = Some (VBool false)
    /\ status2 !! "failure" = Some (VBool false)
    /\ DockingConstraintProcessor.step Scenario.docking_limits self2
         (Scenario.docking_env 0) 1 = Ok (self3, status3)
    /\ status3 !! "success" = Some (VBool true)
    /\ status3 !! "failure" = Some (VStr "timeout").
Proof.
  eexists _, _, _, _, _, _.
  split; [apply docking_step_eq; reflexivity|].
  split; [rewrite lookup_insert_eq; reflexivity|].
  split; [rewrite lookup_insert_ne by done; rewrite lookup_insert_eq;
          reflexivity|].
  split; [apply docking_step_eq; reflexivity|].
  split; [rewrite lookup_insert_eq; reflexivity|].
  split; [rewrite lookup_insert_ne by done; rewrite lookup_insert_eq;
          reflexivity|].
  split; [apply docking_step_eq; reflexivity|].
  split; [rewrite lookup_insert_eq; reflexivity|].
  rewrite lookup_insert_ne by done. rewrite lookup_insert_eq. reflexivity.
Qed.

Section SuccessAndFailure.
Import PrimFloat.
Context {obj : Type} `{Geometry obj}.
Context {obj64 : Type} `{Binary64.Geometry obj64}.

(** C4, amended.  The success and the failure field of a status record
    are computed independently of each other from the same state:
    success is true exactly when the docking region contains the
    deputy, and failure is "timeout" when the elapsed time exceeds the
    timeout, else "distance" when the docking distance is at or above
    the maximum goal distance, else False; so both can be set in one
    record.  Failure takes precedence where the record is consumed: on
    a record with a failure code, whatever its success field holds,
    [gen_reward] returns the sum of the time reward, the
    distance-change reward, a success reward of 0 and the failure
    reward of that code, and it adds 0 to the success total and the
    failure reward to the failure total. *)
Theorem failure_overrides_success_in_reward
    (cc : DockingConstraintProcessor.config)
    (cself : DockingConstraintProcessor.state)
    (env_objs : gmap string obj) (deputy region : obj)
    (rc : Binary64.DockingRewardProcessor.config)
    (rself : Binary64.DockingRewardProcessor.state)
    (h : list (gmap string float))
    (env64 : gmap string obj64) (timestep : float)
    (deputy64 region64 : obj64)
    (status_dict : gmap string value) (code : string) (fr : float)
    (Hdep : env_objs !! "deputy" = Some deputy)
    (Hreg : env_objs !! "docking_region" = Some region)
    (Hfailure : status_dict !! "failure" = Some (VStr code))
    (Hcode : code <> "")
    (Hfr : Binary64.DockingRewardProcessor.failure rc !! code = Some fr)
    (Hreach : Binary64.DockingRewardProcessor.reachable rc rself h)
    (Hdep64 : env64 !! "deputy" = Some deputy64)
    (Hreg64 : env64 !! "docking_region" = Some region64) :
  (exists record,
     DockingConstraintProcessor.check_constraints cc cself env_objs
       = Ok record
     /\ record !! "success" = Some (VBool (contains region deputy))
     /\ record !! "failure" =
        Some (if Qlt_bool (DockingConstraintProcessor.timeout cc)
                          (DockingConstraintProcessor.time_elapsed cself)
              then VStr "timeout"
              else if Qle_bool
                        (DockingConstraintProcessor.max_goal_distance cc)
                        (distance deputy region)
              then VStr "distance" else VBool false))
  /\ exists d s f self' h' d',
       h !! Binary64.DockingRewardProcessor.reward_component_totals rself
       = Some d
       /\ d !! "success" = Some s
       /\ d !! "failure" = Some f
       /\ Binary64.DockingRewardProcessor.gen_reward rc env64 timestep
            status_dict rself h
          = (self', h',
             Ok (0 + (0 + Binary64.DockingRewardProcessor.time_decay rc)
                 + (0 + (Binary64.distance deputy64 region64
                         - Binary64.DockingRewardProcessor.prev_distance
                             rself)
                        * Binary64.DockingRewardProcessor.dist_change rc)
                 + 0 + (0 + fr))%float)
       /\ h' !! Binary64.DockingRewardProcessor.reward_component_totals self'
          = Some d'
       /\ d' !! "success" = Some (s + 0)%float
       /\ d' !! "failure" = Some (f + (0 + fr))%float.
Proof.
  split.
  - unfold DockingConstraintProcessor.check_constraints,
      DockingConstraintProcessor.check_docking_cond, getitem.
    rewrite Hdep, Hreg. cbn [bind].
    eexists. split; [reflexivity|].
    split.
    + rewrite lookup_insert_eq. destruct (contains region deputy); reflexivity.
    + rewrite lookup_insert_ne by done. rewrite lookup_insert_eq. reflexivity.
  - assert (Hsf : Binary64.DockingRewardProcessor.terminal_rewards rc
                    status_dict = Ok (0, 0 + fr)%float).
    { unfold Binary64.DockingRewardProcessor.terminal_rewards, getitem,
        getitem_value.
      rewrite Hfailure. cbn [bind truthy].
      destruct (String.eqb code "") eqn:Heq.
      + apply String.eqb_eq in Heq. contradiction.
      + cbn [negb]. unfold getitem. rewrite Hfr. reflexivity. }
    destruct (reachable_has_totals rc rself h Hreach)
      as (d & t & dc & s & f & Hd & Hcomp).
    pose proof (gen_reward_returns_eq rc rself h env64 timestep status_dict
                  deputy64 region64 _ d t dc s f Hdep64 Hreg64 Hsf Hd Hcomp)
      as Hgen.
    cbv zeta in Hgen. cbn [fst snd] in Hgen.
    destruct Hcomp as (_ & _ & Hs & Hf).
    eexists d, s, f, _, _, _.
    split; [exact Hd|]. split; [exact Hs|]. split; [exact Hf|].
    split; [exact Hgen|].
    cbn [Binary64.DockingRewardProcessor.reward_component_totals].
    split; [exact (store_lookup_insert h _ d _ Hd)|].
    split.
    + rewrite lookup_insert_ne by done. apply lookup_insert_eq.
    + apply lookup_insert_eq.
Qed.

End SuccessAndFailure.

Section FailureOverSuccess.
Import PrimFloat.

(** The record of the episode above, success = True with failure =
    "timeout", given to the reward processor after its reset at
    distance 5: the reward is -0.01 + 0.5 + 0 - 1. *)
Lemma failure_overrides_success_in_reward_witness :
  exists self' h' d',
    Binary64.DockingRewardProcessor.gen_reward Binary64.Line.docking_rewards
      (Binary64.Line.docking_env 0) 1
      (Scenario.outcome (VBool true) (VStr "timeout"))
      {| Binary64.DockingRewardProcessor.prev_distance := 5;
         Binary64.DockingRewardProcessor.step_reward := 0;
         Binary64.DockingRewardProcessor.total_reward := 0;
         Binary64.DockingRewardProcessor.reward_component_totals := 0 |}
      [<["time" := 0%float]> (<["distance_change" := 0%float]>
         (<["success" := 0%float]> (<["failure" := 0%float]> ∅)))]
    = (self', h',
       Ok (0 + (0 + -0.01) + (0 + (abs (0 - 0) - 5) * -0.1) + 0
           + (0 + -1))%float)
    /\ h' !! Binary64.DockingRewardProcessor.reward_component_totals self'
       = Some d'
    /\ d' !! "success" = Some (0 + 0)%float
    /\ d' !! "failure" = Some (0 + (0 + -1))%float.
Proof.
  destruct (failure_overrides_success_in_reward
              (obj := LineGeometry.obj) (obj64 := Binary64.Line.obj)
              Scenario.docking_limits
              DockingConstraintProcessor.reset (Scenario.docking_env 0)
              {| LineGeometry.pos := 0; LineGeometry.radius := 0 |}
              {| LineGeometry.pos := 0; LineGeometry.radius := 1 |}
              Binary64.Line.docking_rewards
              {| Binary64.DockingRewardProcessor.prev_distance := 5;
                 Binary64.DockingRewardProcessor.step_reward := 0;
                 Binary64.DockingRewardProcessor.total_reward := 0;
                 Binary64.DockingRewardProcessor.reward_component_totals
                   := 0 |}
              [<["time" := 0%float]> (<["distance_change" := 0%float]>
                 (<["success" := 0%float]> (<["failure" := 0%float]> ∅)))]
              (Binary64.Line.docking_env 0) 1%float
              {| Binary64.Line.pos := 0%float |}
              {| Binary64.Line.pos := 0%float |}
              (Scenario.outcome (VBool true) (VStr "timeout")) "timeout"
              (-1)%float)
    as (_ & d & s & f & self' & h' & d' & Hd & Hs & Hf & Hgen & Hd' & Hs'
        & Hf').
  - reflexivity.
  - reflexivity.
  - reflexivity.
  - discriminate.
  - reflexivity.
  - exact (Binary64.DockingRewardProcessor.reachable_reset
             Binary64.Line.docking_rewards (Binary64.Line.docking_env 5)
             [] _ _ eq_refl).
  - reflexivity.
  - reflexivity.
  - injection Hd as <-.
    rewrite !lookup_insert_ne, lookup_insert_eq in Hs by done.
    injection Hs as <-.
    rewrite !lookup_insert_ne, lookup_insert_eq in Hf by done.
    injection Hf as <-.
    exists self', h', d'. split; [exact Hgen|].
    split; [exact Hd'|]. split; [exact Hs' | exact Hf'].
Defined.
End FailureOverSuccess.

(** ** Magnitude-normalised encoding *)

Section MagNorm.
Import DubinsObservationProcessor.
Local Open Scope R_scope.




Lemma norm_zero (vec : list R) :
  Forall (fun x => x = 0) vec -> norm vec = 0.
Proof.
  intros Hall. unfold norm.
  replace (fold_right (fun x s => x * x + s) 0 vec) with 0;
    [apply sqrt_0|].
  induction Hall as [|x vec Hx _ IH]; cbn; [reflexivity|].
  rewrite <- IH, Hx. ring.
Qed.

Lemma fdiv_nonzero (x d : R) : d <> 0 -> fdiv x d = Fin (x / d).
Proof.
  intros Hd. unfold fdiv. destruct (Req_EM_T d 0); [contradiction|reflexivity].
Qed.

End MagNorm.

Section MagNormBinary64.
Import PrimFloat Binary64.DubinsObservationProcessor.
Local Open Scope float_scope.




End MagNormBinary64.


Section MagNormWitness.
Import PrimFloat.

End MagNormWitness.

(** ** Observation vector *)

Lemma bind_Ok_inv {A B : Type} (m : result A) (k : A -> result B) (b : B) :
  bind m k = Ok b -> exists a, m = Ok a /\ k a = Ok b.
Proof.
  destruct m as [a|e]; cbn; [|discriminate].
  intros Hk. exists a. split; [reflexivity | exact Hk].
Qed.

Section Observation.
Import DubinsObservationProcessor.
Local Open Scope R_scope.

Lemma clip_in_box (x : float64) : x <> NaN -> in_box (clip (-1) 1 x).
Proof.
  destruct x as [a|[]|]; cbn; intros Hx; try contradiction.
  - unfold Rmin, Rmax.
    destruct (Rle_dec a (-1)); destruct (Rle_dec _ 1); lra.
  - unfold Rmin. destruct (Rle_dec (-1) 1); lra.
  - lra.
Qed.

Lemma fdiv_zero_zero (x : R) : x = 0 -> fdiv x 0 = NaN.
Proof.
  intros ->. unfold fdiv.
  destruct (Req_EM_T 0 0) as [_|Hne]; [|contradiction].
  reflexivity.
Qed.

Section AnyRotation.
Context {rotation : Type} `{Rotation rotation}.

Lemma process_inv (c : config) (env_objs : gmap string env_obj)
    (obs : list float64) :
  _process c env_objs = Ok obs ->
  exists (rot : rotation) (d1 d2 d3 d4 v1 v2 v3 v4 consts : list R)
         (raw : list float64),
    apply rot d1 = Ok v1 /\ apply rot d2 = Ok v2
    /\ apply rot d3 = Ok v3 /\ apply rot d4 = Ok v4
    /\ obs_norm_const c = Ok consts
    /\ broadcast divide
         (let encode :=
            if String.eqb (mode c) "magnorm" then vec2magnorm else map Fin in
          (encode v1 ++ encode v2 ++ encode v3 ++ encode v4)%list)
         consts = Ok raw
    /\ obs = map (clip (-1) 1) raw.
Proof.
  unfold _process. intros Hp.
  apply bind_Ok_inv in Hp as (l & _ & Hp).
  apply bind_Ok_inv in Hp as (w & _ & Hp).
  apply bind_Ok_inv in Hp as (d1 & _ & Hp).
  apply bind_Ok_inv in Hp as (g & _ & Hp).
  apply bind_Ok_inv in Hp as (d2 & _ & Hp).
  cbv zeta in Hp.
  apply bind_Ok_inv in Hp as (v1 & Hv1 & Hp).
  apply bind_Ok_inv in Hp as (v2 & Hv2 & Hp).
  apply bind_Ok_inv in Hp as (v3 & Hv3 & Hp).
  apply bind_Ok_inv in Hp as (v4 & Hv4 & Hp).
  apply bind_Ok_inv in Hp as (consts & Hconsts & Hp).
  apply bind_Ok_inv in Hp as (raw & Hraw & Hp).
  injection Hp as <-.
  eexists _, d1, d2, (velocity w), (velocity l), v1, v2, v3, v4, consts, raw.
  repeat split; eassumption.
Qed.

(** With a rotation that takes vectors of three components only, the
    concatenated vector has 12 or 16 components, the constants are 8 or
    12, and the division raises: no observation is ever returned. *)
Lemma process_never_returns (c : config) (env_objs : gmap string env_obj)
    (obs : list float64) :
  three_vectors_only rotation -> _process c env_objs <> Ok obs.
Proof.
  intros Hlaw Hp. apply process_inv in Hp
    as (rot & d1 & d2 & d3 & d4 & v1 & v2 & v3 & v4 & consts & raw & Hp).
  destruct Hp as (H1 & H2 & H3 & H4 & Hconsts & Hraw & _).
  apply Hlaw in H1 as [_ H1]. apply Hlaw in H2 as [_ H2].
  apply Hlaw in H3 as [_ H3]. apply Hlaw in H4 as [_ H4].
  destruct v1 as [|? [|? [|? [|? ?]]]]; try discriminate H1.
  destruct v2 as [|? [|? [|? [|? ?]]]]; try discriminate H2.
  destruct v3 as [|? [|? [|? [|? ?]]]]; try discriminate H3.
  destruct v4 as [|? [|? [|? [|? ?]]]]; try discriminate H4.
  unfold obs_norm_const in Hconsts.
  destruct (String.eqb (mode c) "magnorm"), (String.eqb (mode c) "rect");
    try discriminate Hconsts; injection Hconsts as <-;
    discriminate Hraw.
Qed.
End AnyRotation.

Lemma spatial_three_vectors_only :
  three_vectors_only ObservationScenario.spatial.
Proof.
  intros r v out. cbn.
  destruct (length v =? 3)%nat eqn:Hlen; [|discriminate].
  intros [= <-]. apply Nat.eqb_eq in Hlen. split; exact Hlen.
Qed.

End Observation.

(** * Further properties of the processors *)

(** ** Episodes of the region-dwell reward *)

Section DwellEpisode.
Import RejoinRewardProcessor RejoinEpisode.



End DwellEpisode.


Section DwellNonNegative.
Import RejoinRewardProcessor.


End DwellNonNegative.

(** ** Previous-step containment *)

Section PreviousStatus.
Import DubinsInRejoinPrev RejoinEpisode.

Lemma prev_outputs_from (c : config) (trace : list (Q * gmap string value))
    (vs : list value) :
  Forall2 (fun x v => snd x !! rejoin_status c = Some v) trace vs ->
  forall self,
    prev_outputs c self trace
      = Ok (take (length trace) (in_rejoin_current self :: vs)).
Proof.
  induction 1 as [|[dt status] v trace vs Hv _ IH]; intros self;
    [reflexivity|].
  cbn [prev_outputs]. unfold step, Processor.step, _increment, getitem.
  cbn [snd] in Hv. rewrite Hv. cbn [bind fst snd _process in_rejoin_prev].
  rewrite IH. reflexivity.
Qed.

(** X3. Over an episode, [DubinsInRejoinPrev] returns on every step the
    containment status that the step before it saw, and on the first
    step the one seen by [reset]: its outputs are the containment
    statuses delayed by one step. *)
Theorem prev_status_is_delayed (c : config) (status0 : gmap string value)
    (v0 : value) (trace : list (Q * gmap string value)) (vs : list value)
    (Hreset : status0 !! rejoin_status c = Some v0)
    (Htrace : Forall2 (fun x v => snd x !! rejoin_status c = Some v)
                      trace vs) :
  exists self outs,
    reset c status0 = Ok self
    /\ prev_outputs c self trace = Ok outs
    /\ outs = take (length trace) (v0 :: vs)
    /\ length outs = length trace.
Proof.
  unfold reset, getitem. rewrite Hreset. cbn [bind].
  eexists; eexists. split; [reflexivity|].
  split; [apply (prev_outputs_from c trace vs Htrace)|].
  split; [reflexivity|].
  cbn [in_rejoin_current]. rewrite length_take.
  pose proof (Forall2_length _ _ _ Htrace) as Hlen. cbn [length]. lia.
Qed.

Lemma prev_status_is_delayed_witness :
  exists self outs,
    reset EpisodeScenario.prev_config (Scenario.containment false false)
      = Ok self
    /\ prev_outputs EpisodeScenario.prev_config self Scenario.toggling
       = Ok outs
    /\ outs = [VBool false; VBool true; VBool false].
Proof.
  destruct (prev_status_is_delayed EpisodeScenario.prev_config
              (Scenario.containment false false) (VBool false)
              Scenario.toggling [VBool true; VBool false; VBool true])
    as (self & outs & Hreset & Hout & Heq & _).
  - reflexivity.
  - repeat constructor.
  - exists self, outs. split; [exact Hreset|]. split; [exact Hout|].
    rewrite Heq. reflexivity.
Defined.
End PreviousStatus.

(** ** Durations *)

Section Durations.
Import RejoinEpisode.

Lemma elapsed_sum (sizes : list Q) :
  forall self,
    DubinsTimeElapsed.time_elapsed (elapsed self sizes)
    == DubinsTimeElapsed.time_elapsed self + Qsum sizes.
Proof.
  unfold Qsum.
  induction sizes as [|dt sizes IH]; intros self; cbn [elapsed fold_right].
  - ring.
  - rewrite IH.
    cbn [DubinsTimeElapsed._increment DubinsTimeElapsed.time_elapsed]. ring.
Qed.

Lemma rejoin_time_step_inv (c : DubinsRejoinTime.config)
    (self self' : DubinsRejoinTime.state) (dt out : Q)
    (status : gmap string value) :
  DubinsRejoinTime.step c self dt status = Ok (self', out) ->
  exists v,
    status !! DubinsRejoinTime.rejoin_status c = Some v
    /\ DubinsRejoinTime.in_rejoin self' = v
    /\ DubinsRejoinTime.rejoin_time self'
       = if truthy v then DubinsRejoinTime.rejoin_time self + dt else 0.
Proof.
  unfold DubinsRejoinTime.step, Processor.step, DubinsRejoinTime._increment,
    getitem.
  destruct (status !! DubinsRejoinTime.rejoin_status c) as [v|];
    [|discriminate].
  cbn [bind]. destruct (truthy v) eqn:Hv; cbn [bind]; intros [= <- _];
    exists v; cbn; rewrite ?Hv; repeat split.
Qed.

(** The invariant that ties the duration in the region to the elapsed
    time and to the containment status last seen. *)
Lemma rejoin_time_invariant (c : DubinsRejoinTime.config)
    (trace : list (Q * gmap string value)) :
  forall (rt rt' : DubinsRejoinTime.state) (te : DubinsTimeElapsed.state),
    Forall (fun x => 0 <= fst x) trace ->
    0 <= DubinsRejoinTime.rejoin_time rt ->
    DubinsRejoinTime.rejoin_time rt <= DubinsTimeElapsed.time_elapsed te ->
    (0 < DubinsRejoinTime.rejoin_time rt ->
     truthy (DubinsRejoinTime.in_rejoin rt) = true) ->
    DubinsRejoinTime.run c rt trace = Ok rt' ->
    0 <= DubinsRejoinTime.rejoin_time rt'
    /\ DubinsRejoinTime.rejoin_time rt'
       <= DubinsTimeElapsed.time_elapsed (elapsed te (map fst trace))
    /\ (0 < DubinsRejoinTime.rejoin_time rt' ->
        truthy (DubinsRejoinTime.in_rejoin rt') = true).
Proof.
  induction trace as [|[dt status] rest IH];
    intros rt rt' te Hsizes H0 Hle Hin Hrun.
  - cbn in Hrun. injection Hrun as <-. repeat split; assumption.
  - cbn [DubinsRejoinTime.run] in Hrun.
    destruct (DubinsRejoinTime.step c rt dt status) as [[rt1 out]|] eqn:Hstep;
      [|discriminate].
    cbn [bind fst] in Hrun.
    inversion Hsizes as [|x l Hdt Hrest]; subst. cbn [fst] in Hdt.
    destruct (rejoin_time_step_inv c rt rt1 dt out status Hstep)
      as (v & _ & Hv & Ht).
    cbn [map fst elapsed].
    apply (IH rt1 rt' (DubinsTimeElapsed._increment te dt) Hrest);
      [| | |exact Hrun]; rewrite Ht; cbn;
      destruct (truthy v) eqn:Htv; try Lqa.lra;
      try (intros _; rewrite Hv; exact Htv).
Qed.

(** X4. Over an episode with non-negative step sizes, the duration in
    the region reported by [DubinsRejoinTime] is never negative and never
    exceeds the elapsed time reported by [DubinsTimeElapsed], which is
    the sum of the step sizes. *)
Theorem rejoin_time_at_most_elapsed (c : DubinsRejoinTime.config)
    (status0 : gmap string value) (trace : list (Q * gmap string value))
    (rt0 rt : DubinsRejoinTime.state)
    (Hreset : DubinsRejoinTime.reset c status0 = Ok rt0)
    (Hsizes : Forall (fun x => 0 <= fst x) trace)
    (Hrun : DubinsRejoinTime.run c rt0 trace = Ok rt) :
  let te := elapsed DubinsTimeElapsed.reset (map fst trace) in
  0 <= DubinsRejoinTime._process c rt
  /\ DubinsRejoinTime._process c rt <= DubinsTimeElapsed._process te
  /\ DubinsTimeElapsed._process te == Qsum (map fst trace).
Proof.
  intros te.
  assert (H0 : DubinsRejoinTime.rejoin_time rt0 = 0).
  { unfold DubinsRejoinTime.reset in Hreset.
    apply bind_Ok_inv in Hreset as (v & _ & [= <-]). reflexivity. }
  assert (Ha : 0 <= DubinsRejoinTime.rejoin_time rt0)
    by (rewrite H0; Lqa.lra).
  assert (Hb : DubinsRejoinTime.rejoin_time rt0
               <= DubinsTimeElapsed.time_elapsed DubinsTimeElapsed.reset)
    by (rewrite H0; cbn; Lqa.lra).
  assert (Hc : 0 < DubinsRejoinTime.rejoin_time rt0 ->
               truthy (DubinsRejoinTime.in_rejoin rt0) = true)
    by (rewrite H0; intros Hlt; exfalso; Lqa.lra).
  destruct (rejoin_time_invariant c trace rt0 rt DubinsTimeElapsed.reset
              Hsizes Ha Hb Hc Hrun) as (Hnn & Hle & _).
  split; [exact Hnn|]. split; [exact Hle|].
  unfold te, DubinsTimeElapsed._process. rewrite elapsed_sum. cbn. ring.
Qed.

Lemma rejoin_time_at_most_elapsed_witness :
  exists rt0 rt,
    DubinsRejoinTime.reset Scenario.rejoin_time_config
      (Scenario.containment true true) = Ok rt0
    /\ DubinsRejoinTime.run Scenario.rejoin_time_config rt0
         [(1, Scenario.containment true true)] = Ok rt
    /\ 0 <= DubinsRejoinTime._process Scenario.rejoin_time_config rt
    /\ DubinsRejoinTime._process Scenario.rejoin_time_config rt <= 1.
Proof.
  exists {| DubinsRejoinTime.rejoin_time := 0;
            DubinsRejoinTime.in_rejoin := VBool true |},
         {| DubinsRejoinTime.rejoin_time := 0 + 1;
            DubinsRejoinTime.in_rejoin := VBool true |}.
  assert (Hreset : DubinsRejoinTime.reset Scenario.rejoin_time_config
                     (Scenario.containment true true)
                   = Ok {| DubinsRejoinTime.rejoin_time := 0;
                           DubinsRejoinTime.in_rejoin := VBool true |})
    by reflexivity.
  assert (Hrun : DubinsRejoinTime.run Scenario.rejoin_time_config
                   {| DubinsRejoinTime.rejoin_time := 0;
                      DubinsRejoinTime.in_rejoin := VBool true |}
                   [(1, Scenario.containment true true)]
                 = Ok {| DubinsRejoinTime.rejoin_time := 0 + 1;
                         DubinsRejoinTime.in_rejoin := VBool true |})
    by reflexivity.
  split; [exact Hreset|]. split; [exact Hrun|].
  assert (Hsizes : Forall (fun x : Q * gmap string value => 0 <= fst x)
                     [(1, Scenario.containment true true)])
    by (repeat constructor; discriminate).
  destruct (rejoin_time_at_most_elapsed Scenario.rejoin_time_config
              (Scenario.containment true true)
              [(1, Scenario.containment true true)] _ _ Hreset Hsizes Hrun)
    as (Hnn & Hle & _).
  split; [exact Hnn | exact Hle].
Defined.
End Durations.

(** ** Success resolution *)

Section Success.
Import RejoinEpisode.

Lemma success_step_inv (c : DubinsSuccessStatus.config)
    (self self' : DubinsSuccessStatus.state) (dt : Q)
    (status : gmap string value) (out : value) :
  DubinsSuccessStatus.step c self dt status = Ok (self', out) ->
  exists v q,
    status !! DubinsSuccessStatus.rejoin_time_key c = Some v
    /\ as_num v = Ok q
    /\ out = VBool (Qlt_bool (DubinsSuccessStatus.success_time c) q).
Proof.
  unfold DubinsSuccessStatus.step, Processor.step,
    DubinsSuccessStatus._increment, DubinsSuccessStatus._process, getitem.
  destruct (status !! DubinsSuccessStatus.rejoin_time_key c) as [v|];
    [|discriminate].
  cbn [bind DubinsSuccessStatus.rejoin_time].
  destruct (as_num v) as [q|] eqn:Hq; [|discriminate].
  cbn [bind]. intros Hout. exists v, q.
  split; [reflexivity|]. split; [exact Hq|].
  destruct (Qlt_bool (DubinsSuccessStatus.success_time c) q);
    cbn [bind] in Hout; injection Hout as _ <-; reflexivity.
Qed.

(** X5. When [DubinsSuccessStatus] reads the duration produced by
    [DubinsRejoinTime] in an episode with non-negative step sizes, and
    the success time is not negative, success is reported only on a
    step whose containment status is true and only after more than the
    success time has elapsed since the reset. *)
Theorem success_only_after_full_stay (rc : DubinsRejoinTime.config)
    (sc : DubinsSuccessStatus.config) (status0 : gmap string value)
    (trace : list (Q * gmap string value))
    (rt0 rt : DubinsRejoinTime.state)
    (ss ss' : DubinsSuccessStatus.state) (dt : Q)
    (status : gmap string value)
    (Hreset : DubinsRejoinTime.reset rc status0 = Ok rt0)
    (Hsizes : Forall (fun x => 0 <= fst x) trace)
    (Hrun : DubinsRejoinTime.run rc rt0 trace = Ok rt)
    (Htime : 0 <= DubinsSuccessStatus.success_time sc)
    (Hfed : status !! DubinsSuccessStatus.rejoin_time_key sc
            = Some (VNum (DubinsRejoinTime._process rc rt)))
    (Hsuccess : DubinsSuccessStatus.step sc ss dt status
                = Ok (ss', VBool true)) :
  truthy (DubinsRejoinTime.in_rejoin rt) = true
  /\ DubinsSuccessStatus.success_time sc
     < DubinsTimeElapsed._process
         (elapsed DubinsTimeElapsed.reset (map fst trace)).
Proof.
  assert (H0 : DubinsRejoinTime.rejoin_time rt0 = 0).
  { unfold DubinsRejoinTime.reset in Hreset.
    apply bind_Ok_inv in Hreset as (v & _ & [= <-]). reflexivity. }
  assert (Ha : 0 <= DubinsRejoinTime.rejoin_time rt0)
    by (rewrite H0; Lqa.lra).
  assert (Hb : DubinsRejoinTime.rejoin_time rt0
               <= DubinsTimeElapsed.time_elapsed DubinsTimeElapsed.reset)
    by (rewrite H0; cbn; Lqa.lra).
  assert (Hc : 0 < DubinsRejoinTime.rejoin_time rt0 ->
               truthy (DubinsRejoinTime.in_rejoin rt0) = true)
    by (rewrite H0; intros Hlt; exfalso; Lqa.lra).
  destruct (rejoin_time_invariant rc trace rt0 rt DubinsTimeElapsed.reset
              Hsizes Ha Hb Hc Hrun) as (_ & Hle & Hin).
  destruct (success_step_inv sc ss ss' dt status (VBool true) Hsuccess)
    as (v & q & Hv & Hq & Hout).
  rewrite Hfed in Hv. injection Hv as <-. cbn in Hq. injection Hq as <-.
  injection Hout as Hout. symmetry in Hout. apply Qlt_bool_iff in Hout.
  unfold DubinsRejoinTime._process in Hout.
  split.
  - apply Hin. Lqa.lra.
  - unfold DubinsTimeElapsed._process. Lqa.lra.
Qed.

Lemma success_only_after_full_stay_witness :
  truthy (VBool true) = true /\ (0 < 0 + 1)%Q.
Proof.
  apply (success_only_after_full_stay Scenario.rejoin_time_config
           (EpisodeScenario.success_after 0)
           (Scenario.containment true true)
           [(1, Scenario.containment true true)]
           {| DubinsRejoinTime.rejoin_time := 0;
              DubinsRejoinTime.in_rejoin := VBool true |}
           {| DubinsRejoinTime.rejoin_time := 0 + 1;
              DubinsRejoinTime.in_rejoin := VBool true |}
           {| DubinsSuccessStatus.rejoin_time := VNum 0 |}
           {| DubinsSuccessStatus.rejoin_time := VNum (0 + 1) |}
           1 (<["rejoin_time" := VNum (0 + 1)]> ∅)).
  - reflexivity.
  - repeat constructor. discriminate.
  - reflexivity.
  - discriminate.
  - reflexivity.
  - reflexivity.
Defined.
End Success.

(** ** Failure resolution: errors and thresholds *)

Section FailureEdges.
Import DubinsFailureStatus.

(** X6. The three tests of the failure status are evaluated lazily and
    in order.  A missing 'aircraft' margin raises [KeyError] before
    anything is compared; a lead distance that is not a number raises
    [TypeError]; when the lead distance is below the margin the result
    is "crash" even if the elapsed time is not a number, and otherwise
    an elapsed time that is not a number raises [TypeError]. *)
Theorem failure_errors_in_order (c : config) (self : state) :
  (safety_margin c !! "aircraft" = None ->
   _process c self = Raise (KeyError (VStr "aircraft")))
  /\ (forall margin s,
        safety_margin c !! "aircraft" = Some margin ->
        lead_distance self = VStr s ->
        _process c self = Raise TypeError)
  /\ (forall margin ld,
        safety_margin c !! "aircraft" = Some margin ->
        lead_distance self = VNum ld -> ld < margin ->
        _process c self = Ok (VStr "crash"))
  /\ (forall margin ld s,
        safety_margin c !! "aircraft" = Some margin ->
        lead_distance self = VNum ld -> ~ ld < margin ->
        time_elapsed self = VStr s ->
        _process c self = Raise TypeError).
Proof.
  unfold _process, getitem. repeat split.
  - intros ->. reflexivity.
  - intros margin s -> ->. reflexivity.
  - intros margin ld -> -> Hlt. cbn [bind as_num].
    apply Qlt_bool_iff in Hlt. rewrite Hlt. reflexivity.
  - intros margin ld s -> -> Hge ->. cbn [bind as_num].
    apply Qlt_bool_false_iff in Hge. rewrite Hge. reflexivity.
Qed.

Lemma failure_errors_in_order_witness :
  _process Scenario.failure_thresholds
    {| lead_distance := VNum 9; time_elapsed := VStr "late" |}
  = Ok (VStr "crash").
Proof.
  destruct (failure_errors_in_order Scenario.failure_thresholds
              {| lead_distance := VNum 9; time_elapsed := VStr "late" |})
    as (_ & _ & Hcrash & _).
  apply (Hcrash 10 9); reflexivity.
Defined.

(** X7. The thresholds at their boundaries, and the range of the
    result.  A lead distance equal to the safety margin is not a crash;
    an elapsed time equal to the timeout is not a timeout; a lead
    distance equal to the maximum goal distance is a "distance" failure
    (when neither of the former two holds).  The result is never
    anything but "crash", "timeout", "distance" or False. *)
Theorem failure_at_the_thresholds (c : config) (self : state)
    (margin ld te : Q) (out : value)
    (Hmargin : safety_margin c !! "aircraft" = Some margin)
    (Hld : lead_distance self = VNum ld)
    (Hte : time_elapsed self = VNum te)
    (Hout : _process c self = Ok out) :
  (ld == margin -> out <> VStr "crash")
  /\ (te == timeout c -> out <> VStr "timeout")
  /\ (~ ld < margin -> ~ timeout c < te -> ld == max_goal_dist c ->
      out = VStr "distance")
  /\ (out = VStr "crash" \/ out = VStr "timeout" \/ out = VStr "distance"
      \/ out = VBool false).
Proof.
  unfold _process, getitem in Hout. rewrite Hmargin, Hld, Hte in Hout.
  cbn [bind as_num] in Hout.
  destruct (Qlt_bool ld margin) eqn:Hcrash.
  { injection Hout as <-. apply Qlt_bool_iff in Hcrash.
    split; [|split; [|split]].
    - intros Heq _. rewrite Heq in Hcrash. exact (Qlt_irrefl _ Hcrash).
    - intros _. discriminate.
    - intros Hno. contradiction.
    - left. reflexivity. }
  apply Qlt_bool_false_iff in Hcrash.
  destruct (Qlt_bool (timeout c) te) eqn:Htimeout.
  { injection Hout as <-. apply Qlt_bool_iff in Htimeout.
    split; [|split; [|split]].
    - intros _. discriminate.
    - intros Heq _. rewrite Heq in Htimeout. exact (Qlt_irrefl _ Htimeout).
    - intros _ Hno. contradiction.
    - right. left. reflexivity. }
  apply Qlt_bool_false_iff in Htimeout.
  destruct (Qle_bool (max_goal_dist c) ld) eqn:Hdist.
  { injection Hout as <-.
    split; [|split; [|split]].
    - intros _. discriminate.
    - intros _. discriminate.
    - intros _ _ _. reflexivity.
    - right. right. left. reflexivity. }
  apply Qle_bool_false_iff in Hdist. injection Hout as <-.
  split; [|split; [|split]].
  - intros _. discriminate.
  - intros _. discriminate.
  - intros _ _ Heq. exfalso. apply Hdist. rewrite Heq. apply Qle_refl.
  - right. right. right. reflexivity.
Qed.

Lemma failure_at_the_thresholds_witness :
  (50000 == 10 -> VStr "distance" <> VStr "crash")
  /\ (500 == timeout Scenario.failure_thresholds ->
      VStr "distance" <> VStr "timeout")
  /\ (~ 50000 < 10 -> ~ timeout Scenario.failure_thresholds < 500 ->
      50000 == max_goal_dist Scenario.failure_thresholds ->
      VStr "distance" = VStr "distance")
  /\ (VStr "distance" = VStr "crash" \/ VStr "distance" = VStr "timeout"
      \/ VStr "distance" = VStr "distance"
      \/ VStr "distance" = VBool false).
Proof.
  apply (failure_at_the_thresholds Scenario.failure_thresholds
           {| lead_distance := VNum 50000; time_elapsed := VNum 500 |}
           10 50000 500 (VStr "distance")).
  - reflexivity.
  - reflexivity.
  - reflexivity.
  - reflexivity.
Defined.
End FailureEdges.

(** ** Docking constraints over an episode *)

Section DockingConstraints.
Import DockingConstraintProcessor DockingEpisode RejoinEpisode.
Context {obj : Type} `{Geometry obj}.

Lemma docking_step_inv (c : config) (self self' : state)
    (env_objs : gmap string obj) (timestep : Q)
    (record : gmap string value) :
  step c self env_objs timestep = Ok (self', record) ->
  exists deputy region,
    env_objs !! "deputy" = Some deputy
    /\ env_objs !! "docking_region" = Some region.
Proof.
  unfold step, check_constraints, check_docking_cond, getitem.
  destruct (env_objs !! "docking_region") as [region|]; [|discriminate].
  destruct (env_objs !! "deputy") as [deputy|]; [|discriminate].
  intros _. exists deputy, region. split; reflexivity.
Qed.

(** X8. Over any sequence of steps, the elapsed time of the docking
    constraint processor grows by the sum of the timesteps, and its
    [in_docking] attribute keeps the value it had: set to False by
    [reset], it is never updated, whatever the status records report. *)
Theorem docking_time_and_stale_flag (c : config) (self self' : state)
    (steps : list (gmap string obj * Q)) (recs : list (gmap string value))
    (Hrun : records c self steps = Ok (self', recs)) :
  time_elapsed self' == time_elapsed self + Qsum (map snd steps)
  /\ in_docking self' = in_docking self
  /\ length recs = length steps.
Proof.
  revert self self' recs Hrun.
  induction steps as [|[env_objs dt] rest IH]; intros self self' recs Hrun.
  - cbn in Hrun. injection Hrun as <- <-. unfold Qsum. cbn.
    split; [ring|]. split; reflexivity.
  - cbn [records] in Hrun.
    apply bind_Ok_inv in Hrun as ([self1 rec1] & Hstep & Hrun).
    apply bind_Ok_inv in Hrun as ([self2 recs2] & Hrest & Hrun).
    cbn [fst snd] in Hrest, Hrun. injection Hrun as <- <-.
    destruct (docking_step_inv c self self1 env_objs dt rec1 Hstep)
      as (deputy & region & Hdep & Hreg).
    rewrite (docking_step_eq c self env_objs dt deputy region Hdep Hreg)
      in Hstep.
    injection Hstep as <- _.
    destruct (IH _ _ _ Hrest) as (Ht & Hflag & Hlen).
    cbn [time_elapsed in_docking] in Ht, Hflag.
    split; [|split].
    + rewrite Ht. unfold Qsum. cbn [map snd fold_right]. ring.
    + exact Hflag.
    + cbn [length]. rewrite Hlen. reflexivity.
Qed.

(** X9. The timeout is final: from a state whose elapsed time exceeds
    the timeout, every further step with a non-negative timestep reports
    the failure "timeout", wherever the deputy is. *)
Theorem docking_timeout_is_final (c : config) (self self' : state)
    (steps : list (gmap string obj * Q)) (recs : list (gmap string value))
    (Hlate : timeout c < time_elapsed self)
    (Hsizes : Forall (fun x => 0 <= snd x) steps)
    (Hrun : records c self steps = Ok (self', recs)) :
  Forall (fun record => record !! "failure" = Some (VStr "timeout")) recs.
Proof.
  revert self self' recs Hlate Hrun.
  induction Hsizes as [|[env_objs dt] rest Hdt _ IH];
    intros self self' recs Hlate Hrun.
  - cbn in Hrun. injection Hrun as _ <-. constructor.
  - cbn [records] in Hrun. cbn [snd] in Hdt.
    apply bind_Ok_inv in Hrun as ([self1 rec1] & Hstep & Hrun).
    apply bind_Ok_inv in Hrun as ([self2 recs2] & Hrest & Hrun).
    cbn [fst snd] in Hrest, Hrun. injection Hrun as _ <-.
    destruct (docking_step_inv c self self1 env_objs dt rec1 Hstep)
      as (deputy & region & Hdep & Hreg).
    rewrite (docking_step_eq c self env_objs dt deputy region Hdep Hreg)
      in Hstep.
    injection Hstep as <- <-.
    assert (Hlate' : timeout c < time_elapsed self + dt) by Lqa.lra.
    constructor.
    + rewrite lookup_insert_ne by done. rewrite lookup_insert_eq.
      apply Qlt_bool_iff in Hlate'. rewrite Hlate'. reflexivity.
    + eapply IH; [|exact Hrest]. exact Hlate'.
Qed.
End DockingConstraints.

Lemma docking_time_and_stale_flag_witness :
  exists self' recs,
    DockingEpisode.records Scenario.docking_limits
      DockingConstraintProcessor.reset
      [(Scenario.docking_env 5, 1); (Scenario.docking_env 0, 1)]
    = Ok (self', recs)
    /\ DockingConstraintProcessor.in_docking self' = false
    /\ length recs = 2%nat.
Proof.
  destruct (DockingEpisode.records Scenario.docking_limits
              DockingConstraintProcessor.reset
              [(Scenario.docking_env 5, 1); (Scenario.docking_env 0, 1)])
    as [[self' recs]|e] eqn:Hrun.
  - exists self', recs. split; [reflexivity|].
    destruct (docking_time_and_stale_flag _ _ _ _ _ Hrun)
      as (_ & Hflag & Hlen).
    split; [exact Hflag | exact Hlen].
  - exfalso. cbn [DockingEpisode.records] in Hrun.
    rewrite (docking_step_eq _ _ (Scenario.docking_env 5) 1 _ _
               eq_refl eq_refl) in Hrun.
    cbn [bind fst snd] in Hrun.
    rewrite (docking_step_eq _ _ (Scenario.docking_env 0) 1 _ _
               eq_refl eq_refl) in Hrun.
    discriminate Hrun.
Defined.

Lemma docking_timeout_is_final_witness :
  exists self' recs,
    DockingEpisode.records Scenario.docking_limits
      {| DockingConstraintProcessor.time_elapsed := 3;
         DockingConstraintProcessor.in_docking := false |}
      [(Scenario.docking_env 0, 1)]
    = Ok (self', recs)
    /\ Forall (fun record => record !! "failure" = Some (VStr "timeout"))
              recs.
Proof.
  destruct (DockingEpisode.records Scenario.docking_limits
              {| DockingConstraintProcessor.time_elapsed := 3;
                 DockingConstraintProcessor.in_docking := false |}
              [(Scenario.docking_env 0, 1)])
    as [[self' recs]|e] eqn:Hrun.
  - exists self', recs. split; [reflexivity|].
    apply (docking_timeout_is_final Scenario.docking_limits
             {| DockingConstraintProcessor.time_elapsed := 3;
                DockingConstraintProcessor.in_docking := false |} self'
             [(Scenario.docking_env 0, 1)] recs); [reflexivity| |exact Hrun].
    repeat constructor. discriminate.
  - exfalso. cbn [DockingEpisode.records] in Hrun.
    rewrite (docking_step_eq _ _ (Scenario.docking_env 0) 1 _ _
               eq_refl eq_refl) in Hrun.
    discriminate Hrun.
Defined.

(** ** Observations: range and shape *)

Section ObservationRange.
Import DubinsObservationProcessor ObservationFacts.
Local Open Scope R_scope.

Lemma zip_with_elems {A B C : Type} (f : A -> B -> C) (a : list A) :
  forall (b : list B),
    List.Forall (fun y => exists x c, In x a /\ In c b /\ y = f x c)
                (zip_with f a b).
Proof.
  induction a as [|x a IH]; intros [|c b]; cbn; try constructor.
  - exists x, c. repeat split; left; reflexivity.
  - specialize (IH b). rewrite List.Forall_forall in IH |- *.
    intros y Hy. destruct (IH y Hy) as (x' & c' & Hx & Hc & ->).
    exists x', c'. repeat split; right; assumption.
Qed.

Lemma map_left_elems {A B C : Type} (f : A -> B -> C) (a : list A) (y : B) :
  List.Forall (fun z => exists x c, In x a /\ In c [y] /\ z = f x c)
              (map (fun x => f x y) a).
Proof.
  apply List.Forall_forall. intros z Hz.
  apply in_map_iff in Hz. destruct Hz as (x0 & <- & Hx0).
  exists x0, y. repeat split; [exact Hx0 | left; reflexivity].
Qed.

Lemma broadcast_elems {A B C : Type} (f : A -> B -> C)
    (a : list A) (b : list B) (l : list C) :
  broadcast f a b = Ok l ->
  List.Forall (fun y => exists x c, In x a /\ In c b /\ y = f x c) l.
Proof.
  unfold broadcast.
  destruct (length a =? length b)%nat.
  - intros [= <-]. apply zip_with_elems.
  - destruct a as [|x [|x' a]].
    + destruct b as [|y [|y' b]]; try discriminate.
      intros [= <-]. constructor.
    + intros [= <-]. apply List.Forall_forall. intros y Hy.
      apply in_map_iff in Hy. destruct Hy as (c & <- & Hc).
      exists x, c. repeat split; [left; reflexivity | exact Hc].
    + destruct b as [|y [|y' b]]; try discriminate.
      intros [= <-]. apply (map_left_elems f (x :: x' :: a) y).
Qed.

Lemma broadcast_length {A B C : Type} (f : A -> B -> C)
    (a : list A) (b : list B) (l : list C) :
  broadcast f a b = Ok l -> length b <> 1%nat -> length l = length b.
Proof.
  unfold broadcast.
  destruct (length a =? length b)%nat eqn:Hlen.
  - intros [= <-] _. apply Nat.eqb_eq in Hlen.
    rewrite length_zip_with. lia.
  - destruct a as [|x [|x' a]].
    + destruct b as [|y [|y' b]]; try discriminate.
      intros _ Hb. contradiction Hb. reflexivity.
    + intros [= <-] _. apply length_map.
    + destruct b as [|y [|y' b]]; try discriminate.
      intros _ Hb. contradiction Hb. reflexivity.
Qed.

Lemma divide_finite (x : float64) (c : R) :
  finite x -> c <> 0 -> finite (divide x c).
Proof.
  intros [a ->] Hc. exists (a / c). cbn. apply fdiv_nonzero. exact Hc.
Qed.

Lemma normalised_in_box (xs : list float64) (consts : list R)
    (raw : list float64) :
  List.Forall finite xs -> List.Forall (fun c => c <> 0) consts ->
  broadcast divide xs consts = Ok raw ->
  List.Forall in_box (map (clip (-1) 1) raw).
Proof.
  intros Hxs Hconsts Hraw. apply broadcast_elems in Hraw.
  rewrite List.Forall_forall in Hxs, Hconsts, Hraw |- *.
  intros y Hy. apply in_map_iff in Hy. destruct Hy as (z & <- & Hz).
  destruct (Hraw z Hz) as (x & c & Hx & Hc & ->).
  destruct (divide_finite x c (Hxs x Hx) (Hconsts c Hc)) as [a ->].
  apply clip_in_box. discriminate.
Qed.

Lemma map_Fin_finite (vec : list R) : List.Forall finite (map Fin vec).
Proof.
  apply List.Forall_forall. intros y Hy. apply in_map_iff in Hy.
  destruct Hy as (a & <- & _). exists a. reflexivity.
Qed.

End ObservationRange.

Section ObservationWitnesses.
Import DubinsObservationProcessor ObservationFacts.
Local Open Scope R_scope.

(** X14. With a rotation that, like scipy's, takes vectors of three
    components only, DubinsObservationProcessor never returns an
    observation, in any mode and for any environment: the encoded
    vectors have 12 or 16 components and the constants 8 or 12. *)
Theorem observation_shapes_never_agree {rotation : Type}
    `{Rotation rotation} (c : config) (env_objs : gmap string env_obj)
    (Hshape : three_vectors_only rotation) :
  forall obs, _process c env_objs <> Ok obs.
Proof.
  intros obs Hobs. apply process_inv in Hobs
    as (rot & d1 & d2 & d3 & d4 & v1 & v2 & v3 & v4 & consts & raw & Hobs).
  destruct Hobs as (H1 & H2 & H3 & H4 & Hconsts & Hraw & _).
  apply Hshape in H1 as [_ H1]. apply Hshape in H2 as [_ H2].
  apply Hshape in H3 as [_ H3]. apply Hshape in H4 as [_ H4].
  assert (Hlen : forall enc : list R -> list float64,
             (length (enc v1 ++ enc v2 ++ enc v3 ++ enc v4)
              = length (enc v1) + length (enc v2) + length (enc v3)
                + length (enc v4))%nat)
    by (intros enc; rewrite !length_app; lia).
  unfold broadcast in Hraw. cbv zeta in Hraw.
  unfold obs_norm_const in Hconsts.
  destruct (String.eqb (mode c) "magnorm") eqn:Hm;
    destruct (String.eqb (mode c) "rect") eqn:Hr;
    try discriminate Hconsts; injection Hconsts as <-;
    rewrite Hlen in Hraw; unfold vec2magnorm in Hraw;
    cbn [length] in Hraw; rewrite ?length_map, H1, H2, H3, H4 in Hraw;
    cbn [Nat.add Nat.eqb] in Hraw;
    destruct v1 as [|? [|? [|? [|? ?]]]]; try discriminate H1;
    discriminate Hraw.
Qed.

Lemma observation_shapes_never_agree_witness :
  _process (ObservationScenario.observe "magnorm")
           ObservationScenario.formation <> Ok [].
Proof.
  apply (observation_shapes_never_agree
           (ObservationScenario.observe "magnorm")
           ObservationScenario.formation spatial_three_vectors_only).
Defined.
End ObservationWitnesses.

(** ** The three-dimensional observation *)

Section Observation3d.
Import DubinsObservationProcessor ObservationFacts.
Local Open Scope R_scope.

Lemma consts_3d_rect_nonzero :
  List.Forall (fun c => c <> 0)
    [10000; 10000; 10000; 10000; 10000; 10000;
     100; 100; 100; 100; 100; 100; PI; PI].
Proof. pose proof PI_RGT_0. repeat constructor; lra. Qed.

Section AnyRotation.
Context {rotation : Type} `{Rotation rotation}.

(** X15. Every observation that Dubins3dObservationProcessor returns has
    the number of components of the declared observation space (14 in
    rectangular mode, 18 in magnitude-normalised mode), and each of them
    lies in [-1, 1] or is a not-a-number; in rectangular mode each of
    them lies in [-1, 1].  An observation is returned only if the
    environment has an object named "wingman", whatever name the
    configuration gives the wingman: roll and flight path angle are
    read from that name. *)
Theorem observation_3d_shape_and_range
    (c : Dubins3dObservationProcessor.config)
    (env_objs : gmap string Dubins3dObservationProcessor.env_obj)
    (obs : list float64)
    (Hobs : Dubins3dObservationProcessor.generate_observation c env_objs
            = Ok obs) :
  Dubins3dObservationProcessor.observation_space_shape c = Ok (length obs)
  /\ List.Forall (fun x => in_box x \/ x = NaN) obs
  /\ (Dubins3dObservationProcessor.mode c = "rect" -> List.Forall in_box obs)
  /\ is_Some (env_objs !! "wingman").
Proof.
  unfold Dubins3dObservationProcessor.generate_observation in Hobs.
  apply bind_Ok_inv in Hobs as (l & _ & Hobs).
  apply bind_Ok_inv in Hobs as (w & _ & Hobs).
  apply bind_Ok_inv in Hobs as (d1 & _ & Hobs).
  apply bind_Ok_inv in Hobs as (g & _ & Hobs).
  apply bind_Ok_inv in Hobs as (d2 & _ & Hobs).
  cbv zeta in Hobs.
  apply bind_Ok_inv in Hobs as (v1 & _ & Hobs).
  apply bind_Ok_inv in Hobs as (v2 & _ & Hobs).
  apply bind_Ok_inv in Hobs as (v3 & _ & Hobs).
  apply bind_Ok_inv in Hobs as (v4 & _ & Hobs).
  apply bind_Ok_inv in Hobs as (named & Hnamed & Hobs).
  apply bind_Ok_inv in Hobs as (consts & Hconsts & Hobs).
  apply bind_Ok_inv in Hobs as (raw & Hraw & Hobs).
  injection Hobs as <-.
  split; [|split; [|split]].
  - rewrite length_map.
    unfold Dubins3dObservationProcessor.obs_norm_const in Hconsts.
    unfold Dubins3dObservationProcessor.observation_space_shape.
    destruct (String.eqb (Dubins3dObservationProcessor.mode c) "rect").
    + injection Hconsts as <-.
      rewrite (broadcast_length _ _ _ _ Hraw); [reflexivity|].
      cbn. discriminate.
    + destruct (String.eqb (Dubins3dObservationProcessor.mode c) "magnorm");
        [|discriminate].
      injection Hconsts as <-.
      rewrite (broadcast_length _ _ _ _ Hraw); [reflexivity|].
      cbn. discriminate.
  - apply List.Forall_forall. intros y Hy. apply in_map_iff in Hy.
    destruct Hy as (x & <- & _).
    destruct x as [a|s|]; [left|left|right; reflexivity];
      apply clip_in_box; discriminate.
  - intros Hmode.
    unfold Dubins3dObservationProcessor.obs_norm_const in Hconsts.
    rewrite Hmode in Hconsts, Hraw. cbn in Hconsts. injection Hconsts as <-.
    cbn [String.eqb Ascii.eqb Bool.eqb] in Hraw.
    apply (normalised_in_box _ _ raw) with (3 := Hraw).
    + repeat (apply Forall_app; split); try apply map_Fin_finite;
        repeat constructor; eexists; reflexivity.
    + exact consts_3d_rect_nonzero.
  - unfold getitem in Hnamed.
    destruct (env_objs !! "wingman") as [x|]; [|discriminate].
    exists x. reflexivity.
Qed.
End AnyRotation.

Lemma observation_3d_shape_and_range_witness :
  exists obs,
    Dubins3dObservationProcessor.generate_observation
      (Observation3dScenario.observe "rect") Observation3dScenario.formation
    = Ok obs
    /\ length obs = 14%nat
    /\ List.Forall in_box obs.
Proof.
  destruct (Dubins3dObservationProcessor.generate_observation
              (Observation3dScenario.observe "rect")
              Observation3dScenario.formation) as [obs|e] eqn:Hobs.
  - exists obs. split; [reflexivity|].
    destruct (observation_3d_shape_and_range
                (Observation3dScenario.observe "rect")
                Observation3dScenario.formation obs Hobs)
      as (Hshape & _ & Hbox & _).
    split; [|exact (Hbox eq_refl)].
    cbn in Hshape. injection Hshape as <-. reflexivity.
  - exfalso. unfold Dubins3dObservationProcessor.generate_observation in Hobs.
    cbn in Hobs. discriminate Hobs.
Defined.

(** The wingman under another name: the observation is not returned. *)
Lemma observation_3d_other_name :
  Dubins3dObservationProcessor.generate_observation
    (Observation3dScenario.observe_blue "rect")
    Observation3dScenario.formation_blue
  = Raise (KeyError (VStr "wingman")).
Proof. reflexivity. Qed.

(** ** The encoding of a vector *)

(** X17. For a vector whose components are all zero, of any length,
    [vec2magnorm] does not raise: it returns the magnitude 0 followed by
    one not-a-number per component. *)
Theorem vec2magnorm_zero_vector (vec : list R)
    (Hzero : List.Forall (fun x => x = 0) vec) :
  vec2magnorm vec = Fin 0 :: map (fun _ => NaN) vec.
Proof.
  unfold vec2magnorm. rewrite (norm_zero vec Hzero). f_equal.
  induction Hzero as [|x vec Hx _ IH]; [reflexivity|].
  cbn [map]. rewrite IH, (fdiv_zero_zero x Hx). reflexivity.
Qed.

Lemma vec2magnorm_zero_vector_witness :
  vec2magnorm [0; 0; 0] = [Fin 0; NaN; NaN; NaN].
Proof.
  apply (vec2magnorm_zero_vector [0; 0; 0]).
  repeat constructor.
Defined.
End Observation3d.

(** ** The component totals shared with the info dictionaries *)

Section DockingRewardSharing.
Import PrimFloat Binary64 Binary64.DockingRewardProcessor.
Local Open Scope float_scope.
Context {obj : Type} `{Binary64.Geometry obj}.

(** X19. The info that [_generate_info] returns holds the processor's
    own dictionary of component totals.  When the processor then makes
    a further step, the info taken before the step still has the old
    [step] and [total], while the new total is the old one plus the
    reward of the step; but its [component_totals] is the dictionary
    the step has updated: read through the old info, the time total is
    now the old one plus the time reward of the new step. *)
Theorem docking_info_shares_totals (c : config) (self self' : state)
    (h h' : list (gmap string float)) (env_objs : gmap string obj)
    (timestep r : float) (status_dict : gmap string value)
    (Hreach : reachable c self h)
    (Hgen : gen_reward c env_objs timestep status_dict self h
            = (self', h', Ok r)) :
  let old := _generate_info self in
  let new := _generate_info self' in
  component_totals old = component_totals new
  /\ step new = r
  /\ total new = total old + r
  /\ exists d d' t,
       h !! component_totals old = Some d
       /\ d !! "time" = Some t
       /\ h' !! component_totals old = Some d'
       /\ d' !! "time" = Some (t + (0 + time_decay c)).
Proof.
  cbn zeta. unfold _generate_info. cbn [component_totals step total].
  destruct (gen_reward_cases c self self' h h' env_objs timestep status_dict
              (Ok r) (reachable_has_totals c self h Hreach) Hgen)
    as [(e & He & _) | [(deputy & region & e & _ & _ & _ & He & _)
       | (deputy & region & sf & d & t & dc & s & f
          & Hdep & Hreg & Hsf & Hd & Hcomp)]];
    [discriminate He | discriminate He |].
  rewrite (gen_reward_returns_eq c self h env_objs timestep status_dict
             deputy region sf d t dc s f Hdep Hreg Hsf Hd Hcomp) in Hgen.
  injection Hgen as <- <- <-.
  cbn [step_reward total_reward reward_component_totals].
  split; [reflexivity|]. split; [reflexivity|]. split; [reflexivity|].
  destruct Hcomp as (Ht & _).
  eexists d, _, t. split; [exact Hd|]. split; [exact Ht|].
  split; [exact (store_lookup_insert h _ d _ Hd)|].
  repeat (rewrite lookup_insert_ne by done). apply lookup_insert_eq.
Qed.

(** X20. [reset] does not clear the dictionary of component totals, it
    makes a new one.  An info taken before the reset therefore keeps
    the component totals of the finished episode: the dictionary it
    holds is not the one the processor has after the reset, and
    neither the reset nor a call of [gen_reward] after it, returned or
    raised, changes it. *)
Theorem docking_reset_leaves_old_info (c : config)
    (self self1 self2 : state) (h h1 h2 : list (gmap string float))
    (env1 env2 : gmap string obj) (timestep : float)
    (status_dict : gmap string value) (out : result float)
    (Hreach : reachable c self h)
    (Hreset : reset c env1 h = Ok (self1, h1))
    (Hgen : gen_reward c env2 timestep status_dict self1 h1
            = (self2, h2, out)) :
  let old := _generate_info self in
  component_totals old <> component_totals (_generate_info self2)
  /\ exists d,
       h !! component_totals old = Some d
       /\ h1 !! component_totals old = Some d
       /\ h2 !! component_totals old = Some d.
Proof.
  cbn zeta. unfold _generate_info. cbn [component_totals].
  destruct (reachable_has_totals c self h Hreach)
    as (d & t & dc & s & f & Hd & _).
  assert (Hlt : (reward_component_totals self < length h)%nat).
  { apply lookup_lt_is_Some. eexists. exact Hd. }
  pose proof (reachable_has_totals c self1 h1
                (reachable_reset c env1 h self1 h1 Hreset)) as Htotals1.
  destruct (reset_inv c env1 h h1 self1 Hreset)
    as (deputy1 & region1 & _ & _ & Hself1 & Hh1).
  assert (Hl1 : reward_component_totals self1 = length h)
    by (rewrite Hself1; reflexivity).
  assert (Hd1 : h1 !! reward_component_totals self = Some d).
  { rewrite Hh1, lookup_app_l by exact Hlt. exact Hd. }
  assert (Hl2 : reward_component_totals self2 = length h
                /\ h2 !! reward_component_totals self = Some d).
  { destruct (gen_reward_cases c self1 self2 h1 h2 env2 timestep
                status_dict out Htotals1 Hgen)
      as [(e & _ & -> & ->) | [(deputy & region & e & _ & _ & _ & _ & -> & Hl & _)
         | (deputy & region & sf & d1 & t1 & dc1 & s1 & f1
            & Hdep & Hreg & Hsf & Hd1' & Hcomp1)]].
    - split; [exact Hl1 | exact Hd1].
    - split; [rewrite Hl; exact Hl1 | exact Hd1].
    - rewrite (gen_reward_returns_eq c self1 h1 env2 timestep status_dict
                 deputy region sf d1 t1 dc1 s1 f1 Hdep Hreg Hsf Hd1' Hcomp1)
        in Hgen.
      injection Hgen as <- <- _.
      cbn [reward_component_totals]. split; [exact Hl1|].
      rewrite list_lookup_insert_ne by (rewrite Hl1; lia). exact Hd1. }
  destruct Hl2 as [Hl2 Hd2].
  split; [rewrite Hl2; lia|].
  exists d. split; [exact Hd|]. split; [exact Hd1 | exact Hd2].
Qed.

(** X23. [gen_reward] assigns [self.prev_distance] before it looks up
    the failure reward.  With a failure code that the configuration
    has no reward for, the call raises KeyError and has assigned
    nothing else: no reward is recorded or added, but the distance of
    the call is kept, so a later call is paid for the change of
    distance since the call that raised, and the change of distance
    up to that call is never paid. *)
Theorem docking_raise_keeps_distance (c : config) (self : state)
    (h : list (gmap string float)) (env_objs : gmap string obj)
    (timestep : float) (status_dict : gmap string value)
    (deputy region : obj) (code : string)
    (Hreach : reachable c self h)
    (Hdep : env_objs !! "deputy" = Some deputy)
    (Hreg : env_objs !! "docking_region" = Some region)
    (Hfailure : status_dict !! "failure" = Some (VStr code))
    (Hcode : code <> "")
    (Hmissing : failure c !! code = None) :
  exists self',
    gen_reward c env_objs timestep status_dict self h
    = (self', h, Raise (KeyError (VStr code)))
    /\ prev_distance self' = distance deputy region
    /\ step_reward self' = step_reward self
    /\ total_reward self' = total_reward self
    /\ reward_component_totals self' = reward_component_totals self
    /\ forall env_objs' timestep' status_dict' deputy' region' sf,
         env_objs' !! "deputy" = Some deputy' ->
         env_objs' !! "docking_region" = Some region' ->
         terminal_rewards c status_dict' = Ok sf ->
         exists self'' h'',
           gen_reward c env_objs' timestep' status_dict' self' h
           = (self'', h'',
              Ok (0 + (0 + time_decay c)
                  + (0 + (distance deputy' region'
                          - distance deputy region) * dist_change c)
                  + fst sf + snd sf)).
Proof.
  assert (Hsf : terminal_rewards c status_dict
                = Raise (KeyError (VStr code))).
  { unfold terminal_rewards, getitem, getitem_value.
    rewrite Hfailure. cbn [bind truthy].
    destruct (String.eqb code "") eqn:Heq.
    - apply String.eqb_eq in Heq. contradiction.
    - cbn [negb]. unfold getitem. rewrite Hmissing. reflexivity. }
  eexists. split; [exact (gen_reward_raises_eq c self h env_objs timestep
                            status_dict deputy region _ Hdep Hreg Hsf)|].
  cbn [prev_distance step_reward total_reward reward_component_totals].
  repeat (split; [reflexivity|]).
  intros env_objs' timestep' status_dict' deputy' region' sf Hdep' Hreg' Hsf'.
  destruct (reachable_has_totals c self h Hreach)
    as (d & t & dc & s & f & Hd & Hcomp).
  pose proof (gen_reward_returns_eq c
                {| prev_distance := distance deputy region;
                   step_reward := step_reward self;
                   total_reward := total_reward self;
                   reward_component_totals := reward_component_totals self |}
                h env_objs' timestep' status_dict' deputy' region' sf
                d t dc s f Hdep' Hreg' Hsf' Hd Hcomp) as Hnext.
  cbv zeta in Hnext. cbn [prev_distance] in Hnext.
  eexists _, _. exact Hnext.
Qed.
End DockingRewardSharing.

Section DockingRewardSharingWitnesses.
Import PrimFloat Binary64 Binary64.DockingRewardProcessor.
Local Open Scope float_scope.

(** The state and the store after a reset at distance 5. *)
Lemma docking_reset_at_5 :
  reset Line.docking_rewards (Line.docking_env 5) []
  = Ok ({| prev_distance := 5; step_reward := 0; total_reward := 0;
           reward_component_totals := 0 |},
        [<["time" := 0]> (<["distance_change" := 0]>
           (<["success" := 0]> (<["failure" := 0]> ∅)))]).
Proof. reflexivity. Qed.

Lemma docking_info_shares_totals_witness :
  exists self0 h0 self1 h1 r d' ,
    reset Line.docking_rewards (Line.docking_env 5) [] = Ok (self0, h0)
    /\ gen_reward Line.docking_rewards (Line.docking_env 3) 1
         (Scenario.outcome (VBool false) (VBool false)) self0 h0
       = (self1, h1, Ok r)
    /\ total (_generate_info self1) = total (_generate_info self0) + r
    /\ h1 !! component_totals (_generate_info self0) = Some d'
    /\ d' !! "time" = Some (0 + (0 + -0.01)).
Proof.
  pose proof docking_reset_at_5 as Hreset.
  pose proof (reachable_reset _ _ _ _ _ Hreset) as Hreach.
  destruct (reachable_has_totals _ _ _ Hreach)
    as (d & t & dc & s & f & Hd & Hcomp).
  pose proof (gen_reward_returns_eq Line.docking_rewards _ _
                (Line.docking_env 3) 1
                (Scenario.outcome (VBool false) (VBool false))
                {| Line.pos := 3 |} {| Line.pos := 0 |} (0, 0) d t dc s f
                eq_refl eq_refl eq_refl Hd Hcomp) as Hgen.
  cbv zeta in Hgen.
  destruct (docking_info_shares_totals _ _ _ _ _ _ _ _ _ Hreach Hgen)
    as (_ & _ & Htot & d0 & d' & t0 & Hd0 & Ht0 & Hd' & Ht').
  injection Hd0 as <-.
  rewrite lookup_insert_eq in Ht0. injection Ht0 as <-.
  eexists _, _, _, _, _, d'. split; [exact Hreset|].
  split; [exact Hgen|]. split; [exact Htot|].
  split; [exact Hd' | exact Ht'].
Defined.

Lemma docking_reset_leaves_old_info_witness :
  exists self0 h0 self1 h1 self2 h2 out d,
    reset Line.docking_rewards (Line.docking_env 5) [] = Ok (self0, h0)
    /\ reset Line.docking_rewards (Line.docking_env 7) h0 = Ok (self1, h1)
    /\ gen_reward Line.docking_rewards (Line.docking_env 3) 1
         (Scenario.outcome (VBool false) (VBool false)) self1 h1
       = (self2, h2, out)
    /\ component_totals (_generate_info self0)
       <> component_totals (_generate_info self2)
    /\ h0 !! component_totals (_generate_info self0) = Some d
    /\ h2 !! component_totals (_generate_info self0) = Some d.
Proof.
  pose proof docking_reset_at_5 as Hreset0.
  pose proof (reachable_reset _ _ _ _ _ Hreset0) as Hreach.
  destruct (reset Line.docking_rewards (Line.docking_env 7)
              [<["time" := 0]> (<["distance_change" := 0]>
                 (<["success" := 0]> (<["failure" := 0]> ∅)))])
    as [[self1 h1]|e] eqn:Hreset1; [|discriminate Hreset1].
  destruct (gen_reward Line.docking_rewards (Line.docking_env 3) 1
              (Scenario.outcome (VBool false) (VBool false)) self1 h1)
    as [[self2 h2] out] eqn:Hgen.
  destruct (docking_reset_leaves_old_info _ _ _ _ _ _ _ _ _ _ _ _
              Hreach Hreset1 Hgen) as (Hne & d & Hd & _ & Hd2).
  eexists _, _, self1, h1, self2, h2, out, d. split; [exact Hreset0|].
  split; [exact Hreset1|]. split; [exact Hgen|].
  split; [exact Hne|]. split; [exact Hd | exact Hd2].
Defined.

Lemma docking_raise_keeps_distance_witness :
  exists self0 h0 self1,
    reset Line.docking_rewards (Line.docking_env 5) [] = Ok (self0, h0)
    /\ gen_reward Line.docking_rewards (Line.docking_env 3) 1
         (Scenario.outcome (VBool false) (VStr "crash")) self0 h0
       = (self1, h0, Raise (KeyError (VStr "crash")))
    /\ prev_distance self1 = abs (3 - 0)
    /\ total_reward self1 = total_reward self0.
Proof.
  pose proof docking_reset_at_5 as Hreset.
  pose proof (reachable_reset _ _ _ _ _ Hreset) as Hreach.
  destruct (docking_raise_keeps_distance Line.docking_rewards _ _
              (Line.docking_env 3) 1
              (Scenario.outcome (VBool false) (VStr "crash"))
              {| Line.pos := 3 |} {| Line.pos := 0 |} "crash" Hreach)
    as (self1 & Hgen & Hprev & _ & Htot & _).
  - reflexivity.
  - reflexivity.
  - reflexivity.
  - discriminate.
  - reflexivity.
  - eexists _, _, self1. split; [exact Hreset|].
    split; [exact Hgen|]. split; [exact Hprev | exact Htot].
Defined.
End DockingRewardSharingWitnesses.

(** ** The episode read from a log *)

Section PositionPlotsFacts.
Import PositionPlots.

Lemma append_inv (d d' : gmap string json) (k : string) (x : result json) :
  append d k x = Ok d' ->
  exists items v,
    d !! k = Some (JList items) /\ x = Ok v
    /\ d' = <[k := JList (items ++ [v])%list]> d.
Proof.
  unfold append, getitem_json.
  destruct (d !! k) as [[| | | |items|]|]; cbn [bind]; try discriminate.
  destruct x as [v|e]; cbn [bind]; [|discriminate].
  intros [= <-]. exists items, v. repeat split.
Qed.

Lemma append_len (d d' : gmap string json) (k : string) (x : result json) :
  append d k x = Ok d' ->
  exists n,
    len_at d k = Some n /\ len_at d' k = Some (S n)
    /\ forall k', k' <> k -> len_at d' k' = len_at d k'.
Proof.
  intros Ha. apply append_inv in Ha as (items & v & Hk & _ & ->).
  exists (length items). unfold len_at. rewrite Hk, lookup_insert_eq.
  split; [reflexivity|]. split.
  - rewrite length_app. cbn. f_equal. lia.
  - intros k' Hne. rewrite lookup_insert_ne by (intros Heq; apply Hne; symmetry; exact Heq).
    reflexivity.
Qed.

Lemma len_at_insert_id (d : gmap string json) (v : json) (k : string) :
  k <> "ID" -> len_at (<["ID" := v]> d) k = len_at d k.
Proof.
  intros Hne. unfold len_at.
  rewrite lookup_insert_ne by (intros Heq; apply Hne; symmetry; exact Heq).
  reflexivity.
Qed.

Lemma process_state_aligned (episode_number : Z) (d d' : gmap string json)
    (state : json) (a b : nat) :
  aligned d a b ->
  process_state episode_number d state = Ok d' ->
  aligned d'
    (if of_episode episode_number state then S a else a)
    (if of_episode episode_number state && lead_has_z state
     then S b else b)
  /\ (if of_episode episode_number state
      then exists id, getitem_json state "episode_ID" = Ok id
                      /\ d' !! "ID" = Some id
      else d' = d).
Proof.
  intros [Hp Hz] Hs. unfold process_state in Hs. unfold of_episode.
  apply bind_Ok_inv in Hs as (wen & Hwen & Hs). rewrite Hwen.
  destruct (eq_int wen episode_number); cbn [andb];
    [|injection Hs as <-; split; [split; assumption | reflexivity]].
  apply bind_Ok_inv in Hs as (id & Hid & Hs). cbv zeta in Hs.
  apply bind_Ok_inv in Hs as (d1 & H1 & Hs).
  apply bind_Ok_inv in Hs as (d2 & H2 & Hs).
  apply bind_Ok_inv in Hs as (d3 & H3 & Hs).
  apply bind_Ok_inv in Hs as (d4 & H4 & Hs).
  apply bind_Ok_inv in Hs as (d5 & H5 & Hs).
  apply bind_Ok_inv in Hs as (d6 & H6 & Hs).
  apply bind_Ok_inv in Hs as (d7 & H7 & Hs).
  apply bind_Ok_inv in Hs as (lead & Hlead & Hs).
  apply bind_Ok_inv in Hs as (has_z & Hhas & Hs).
  unfold lead_has_z. rewrite Hlead, Hhas.
  pose proof (append_inv _ _ _ _ H1) as (i1 & v1 & _ & _ & E1).
  pose proof (append_inv _ _ _ _ H2) as (i2 & v2 & _ & _ & E2).
  pose proof (append_inv _ _ _ _ H3) as (i3 & v3 & _ & _ & E3).
  pose proof (append_inv _ _ _ _ H4) as (i4 & v4 & _ & _ & E4).
  pose proof (append_inv _ _ _ _ H5) as (i5 & v5 & _ & _ & E5).
  pose proof (append_inv _ _ _ _ H6) as (i6 & v6 & _ & _ & E6).
  pose proof (append_inv _ _ _ _ H7) as (i7 & v7 & _ & _ & E7).
  assert (Hid7 : d7 !! "ID" = Some id).
  { rewrite E7, E6, E5, E4, E3, E2, E1.
    repeat (rewrite lookup_insert_ne by done). apply lookup_insert_eq. }
  apply append_len in H1 as (n1 & A1 & B1 & O1).
  apply append_len in H2 as (n2 & A2 & B2 & O2).
  apply append_len in H3 as (n3 & A3 & B3 & O3).
  apply append_len in H4 as (n4 & A4 & B4 & O4).
  apply append_len in H5 as (n5 & A5 & B5 & O5).
  apply append_len in H6 as (n6 & A6 & B6 & O6).
  apply append_len in H7 as (n7 & A7 & B7 & O7).
  unfold planar_keys in Hp. unfold altitude_keys in Hz.
  repeat match goal with
         | Hf : Forall _ (_ :: _) |- _ =>
             let Hhd := fresh "Hk" in
             apply Forall_cons_1 in Hf as [Hhd Hf]
         end.
  assert (Hp7 : Forall (fun k => len_at d7 k = Some (S a)) planar_keys).
  { rewrite len_at_insert_id in A1 by done.
    rewrite O1, len_at_insert_id in A2 by done.
    rewrite O2, O1, len_at_insert_id in A3 by done.
    rewrite O3, O2, O1, len_at_insert_id in A4 by done.
    rewrite O4, O3, O2, O1, len_at_insert_id in A5 by done.
    rewrite O5, O4, O3, O2, O1, len_at_insert_id in A6 by done.
    rewrite O6, O5, O4, O3, O2, O1, len_at_insert_id in A7 by done.
    assert (n1 = a) as -> by congruence. assert (n2 = a) as -> by congruence.
    assert (n3 = a) as -> by congruence. assert (n4 = a) as -> by congruence.
    assert (n5 = a) as -> by congruence. assert (n6 = a) as -> by congruence.
    assert (n7 = a) as -> by congruence.
    unfold planar_keys. repeat constructor.
    - rewrite O7, O6, O5, O4, O3, O2 by done. exact B1.
    - rewrite O7, O6, O5, O4, O3 by done. exact B2.
    - rewrite O7, O6, O5, O4 by done. exact B3.
    - rewrite O7, O6, O5 by done. exact B4.
    - rewrite O7, O6 by done. exact B5.
    - rewrite O7 by done. exact B6.
    - exact B7. }
  assert (Hz7 : Forall (fun k => len_at d7 k = Some b) altitude_keys).
  { unfold altitude_keys. repeat constructor;
      rewrite O7, O6, O5, O4, O3, O2, O1, len_at_insert_id by done;
      assumption. }
  destruct has_z.
  - apply bind_Ok_inv in Hs as (d8 & H8 & Hs).
    apply bind_Ok_inv in Hs as (d9 & H9 & Hs).
    pose proof (append_inv _ _ _ _ H8) as (i8 & v8 & _ & _ & E8).
    pose proof (append_inv _ _ _ _ H9) as (i9 & v9 & _ & _ & E9).
    pose proof (append_inv _ _ _ _ Hs) as (i10 & v10 & _ & _ & E10).
    apply append_len in H8 as (n8 & A8 & B8 & O8).
    apply append_len in H9 as (n9 & A9 & B9 & O9).
    apply append_len in Hs as (n10 & A10 & B10 & O10).
    unfold altitude_keys in Hz7. unfold planar_keys in Hp7.
    repeat match goal with
           | Hf : Forall _ (_ :: _) |- _ =>
               let Hhd := fresh "Hk" in
               apply Forall_cons_1 in Hf as [Hhd Hf]
           end.
    rewrite O8 in A9 by done. rewrite O9, O8 in A10 by done.
    assert (n8 = b) as -> by congruence. assert (n9 = b) as -> by congruence.
    assert (n10 = b) as -> by congruence.
    split; [split|].
    + unfold planar_keys. repeat constructor;
        rewrite O10, O9, O8 by done; assumption.
    + unfold altitude_keys. repeat constructor.
      * rewrite O10, O9 by done. exact B8.
      * rewrite O10 by done. exact B9.
      * exact B10.
    + exists id. split; [exact Hid|]. rewrite E10, E9, E8.
      repeat (rewrite lookup_insert_ne by done). exact Hid7.
  - injection Hs as <-. split; [split; assumption|].
    exists id. split; [exact Hid | exact Hid7].
Qed.

Lemma process_states_aligned (episode_number : Z) (log : list json) :
  forall (d d' : gmap string json) (a b : nat),
    aligned d a b ->
    process_states episode_number d log = Ok d' ->
    aligned d'
      (a + length (List.filter (of_episode episode_number) log))
      (b + length (List.filter lead_has_z
                     (List.filter (of_episode episode_number) log)))
    /\ match last (List.filter (of_episode episode_number) log) with
       | Some state => exists id, getitem_json state "episode_ID" = Ok id
                                  /\ d' !! "ID" = Some id
       | None => d' = d
       end.
Proof.
  induction log as [|state rest IH]; intros d d' a b Hal Hrun.
  - cbn in Hrun. injection Hrun as <-. cbn.
    rewrite !Nat.add_0_r. split; [exact Hal | reflexivity].
  - cbn [process_states] in Hrun.
    apply bind_Ok_inv in Hrun as (d1 & Hstep & Hrun).
    destruct (process_state_aligned episode_number d d1 state a b Hal Hstep)
      as [Hal1 Hid1].
    destruct (IH d1 d' _ _ Hal1 Hrun) as [Hal' Hid'].
    cbn [List.filter].
    destruct (of_episode episode_number state) eqn:Hof; cbn [andb] in *.
    + split.
      * cbn [List.filter]. destruct (lead_has_z state); cbn [length];
          rewrite <- ?Nat.add_succ_comm; exact Hal'.
      * destruct (List.filter (of_episode episode_number) rest)
          as [|state' rest'] eqn:Hf.
        -- cbn in Hid' |- *. subst d'. exact Hid1.
        -- rewrite last_cons_cons.
           destruct (last (state' :: rest')) eqn:Hl; [exact Hid'|].
           apply last_None in Hl. discriminate Hl.
    + subst d1. split; [exact Hal' | exact Hid'].
Qed.

Lemma aligned_episode_dict0 : aligned episode_dict0 0 0.
Proof.
  split; unfold planar_keys, altitude_keys; repeat constructor.
Qed.

Lemma filter_all_length {A : Type} (p : A -> bool) (l : list A) :
  length (List.filter p l) = length l <-> Forall (fun x => p x = true) l.
Proof.
  induction l as [|x l IH]; cbn.
  - split; [constructor | reflexivity].
  - pose proof (List.filter_length_le p l) as Hle.
    destruct (p x) eqn:Hp; cbn.
    + split.
      * intros Hlen. constructor; [exact Hp|]. apply IH. lia.
      * intros Hall. apply Forall_cons_1 in Hall as [_ Hall].
        apply IH in Hall. lia.
    + split; [lia|]. intros Hall. apply Forall_cons_1 in Hall as [Hx _].
      congruence.
Qed.

(** X21. When [process_log] returns, the seven lists of the plane
    (step numbers and the x and y of lead, wingman and rejoin region)
    all have one entry per record of the episode, and the three
    altitude lists all have one entry per record of the episode whose
    lead has a "z".  So the altitude lists are as long as the step
    numbers, which is the test of the script before it plots them,
    exactly when every record of the episode has an altitude, an
    episode without records included.  The key "ID" is set exactly
    when the episode has a record, to the identifier of its last
    record. *)
Theorem process_log_lists_aligned (log : list json) (episode_number : Z)
    (d : gmap string json)
    (Hrun : process_log log episode_number = Ok d) :
  let episode := List.filter (of_episode episode_number) log in
  aligned d (length episode) (length (List.filter lead_has_z episode))
  /\ (length (List.filter lead_has_z episode) = length episode
      <-> Forall (fun state => lead_has_z state = true) episode)
  /\ match last episode with
     | Some state => exists id, getitem_json state "episode_ID" = Ok id
                                /\ d !! "ID" = Some id
     | None => d !! "ID" = None
     end.
Proof.
  cbn zeta. unfold process_log in Hrun.
  destruct (process_states_aligned episode_number log episode_dict0 d 0 0
              aligned_episode_dict0 Hrun) as [Hal Hid].
  cbn [Nat.add] in Hal. split; [exact Hal|]. split.
  - apply filter_all_length.
  - destruct (last (List.filter (of_episode episode_number) log));
      [exact Hid | subst d; reflexivity].
Qed.

Lemma process_states_filter (episode_number : Z) (log : list json) :
  Forall (fun state => exists wen,
            getitem_json state "worker_episode_number" = Ok wen) log ->
  forall d,
    process_states episode_number d log
    = process_states episode_number d
        (List.filter (of_episode episode_number) log).
Proof.
  induction 1 as [|state rest [wen Hwen] _ IH]; intros d; [reflexivity|].
  cbn [process_states List.filter]. unfold of_episode. rewrite Hwen.
  destruct (eq_int wen episode_number) eqn:Heq.
  - cbn [process_states].
    destruct (process_state episode_number d state) as [d1|e];
      [cbn [bind]; apply IH | reflexivity].
  - unfold process_state. rewrite Hwen. cbn [bind]. rewrite Heq. apply IH.
Qed.

(** X22. Of a record of another episode [process_log] reads the key
    "worker_episode_number" and nothing else: when every record of the
    log has that key, the result, an error included, is the one for the
    log with the records of the other episodes removed, whatever those
    records hold. *)
Theorem process_log_ignores_other_episodes (log : list json)
    (episode_number : Z)
    (Hkeys : Forall (fun state => exists wen,
                       getitem_json state "worker_episode_number" = Ok wen)
               log) :
  process_log log episode_number
  = process_log (List.filter (of_episode episode_number) log) episode_number.
Proof.
  unfold process_log. apply process_states_filter. exact Hkeys.
Qed.
End PositionPlotsFacts.

Lemma returned_inv {A : Type} (r : result A) :
  returned r = true -> exists a, r = Ok a.
Proof. destruct r as [a|e]; [eexists; reflexivity | discriminate]. Qed.

Lemma flight_log_processed :
  exists d, PositionPlots.process_log PositionPlots.flight_log 1 = Ok d.
Proof. apply returned_inv. vm_compute. reflexivity. Qed.

Lemma process_log_lists_aligned_witness :
  exists d,
    PositionPlots.process_log PositionPlots.flight_log 1 = Ok d
    /\ PositionPlots.aligned d
         (length (List.filter (PositionPlots.of_episode 1)
                    PositionPlots.flight_log))
         (length (List.filter PositionPlots.lead_has_z
                    (List.filter (PositionPlots.of_episode 1)
                       PositionPlots.flight_log))).
Proof.
  destruct flight_log_processed as [d Hrun].
  exists d. split; [exact Hrun|].
  exact (proj1 (process_log_lists_aligned PositionPlots.flight_log 1 d
                  Hrun)).
Defined.

Lemma process_log_ignores_other_episodes_witness :
  PositionPlots.process_log PositionPlots.flight_log 1
  = PositionPlots.process_log
      (List.filter (PositionPlots.of_episode 1) PositionPlots.flight_log) 1.
Proof.
  apply (process_log_ignores_other_episodes PositionPlots.flight_log 1).
  repeat constructor; eexists; reflexivity.
Defined.
